(** * Cube embedding demo: session relay, configuration form, embed renderer

    A shallow embedding of [server.js] (the session relay and its start-up
    checks) and of [src/App.tsx] (configuration persistence, local
    validation, request construction, embed-URL derivation and the refresh
    path), together with the properties the specification states about them.

    Conventions.
    - A JavaScript string is a [string]; a character is one code unit below
      256.
    - What the JavaScript engine supplies (numbers, [parseInt],
      [JSON.parse], [JSON.stringify], the text of engine-raised errors) is
      the interface [JSRuntime]; every definition translated from the
      repository is parametric in it.  [Ref.runtime] is an executable
      instance used to run the definitions on concrete inputs.
    - An [async] function that awaits one [fetch] is a [Proc]: either it
      finishes without touching the network, or it issues one request and
      continues with whatever the network answers. *)

From Stdlib Require Import Ascii String ZArith List Bool Lia.
From stdpp Require Import base strings gmap list pretty.

Local Open Scope string_scope.

(** ** Strings *)

Module Str.

(** ECMAScript WhiteSpace and LineTerminator code units below 256:
    TAB, LF, VT, FF, CR, SP, NBSP. *)
Definition is_whitespace (a : ascii) : bool :=
  let n := N_of_ascii a in
  ((9 <=? n) && (n <=? 13) || (n =? 32) || (n =? 160))%N.

Fixpoint trimStart (s : string) : string :=
  match s with
  | EmptyString => EmptyString
  | String a rest => if is_whitespace a then trimStart rest else s
  end.

Definition trimEnd (s : string) : string :=
  String.rev (trimStart (String.rev s)).

(** [String.prototype.trim]. *)
Definition trim (s : string) : string := trimEnd (trimStart s).

(** Truthiness of a string: [!s] is [negb (truthy s)]. *)
Definition truthy (s : string) : bool :=
  match s with EmptyString => false | String _ _ => true end.

Fixpoint starts_with (p s : string) : bool :=
  match p, s with
  | EmptyString, _ => true
  | String a p', String b s' => Ascii.eqb a b && starts_with p' s'
  | String _ _, EmptyString => false
  end.

(** [s.includes(p)]. *)
Fixpoint includes (p s : string) : bool :=
  starts_with p s ||
  match s with
  | EmptyString => false
  | String _ s' => includes p s'
  end.

Fixpoint all_whitespace (s : string) : bool :=
  match s with
  | EmptyString => true
  | String a rest => is_whitespace a && all_whitespace rest
  end.

End Str.

(** ** JavaScript values that arise from JSON *)

#[local] Set Warnings "-register-all".

(** A value produced by [JSON.parse] or written as an object literal of plain
    data.  An object keeps its properties in insertion order. *)
Inductive json (number : Type) : Type :=
| JNull
| JBool (b : bool)
| JNum (n : number)
| JStr (s : string)
| JArr (items : list (json number))
| JObj (props : list (string * json number)).

Arguments JNull {number}.
Arguments JBool {number} b.
Arguments JNum {number} n.
Arguments JStr {number} s.
Arguments JArr {number} items.
Arguments JObj {number} props.

(** Outcome of [JSON.parse]: a value, or a [SyntaxError] with its message. *)
Inductive parse_result (A : Type) : Type :=
| Parsed (v : A)
| SyntaxError (message : string).

Arguments Parsed {A} v.
Arguments SyntaxError {A} message.

(** Outcome of reading a property [x.p]: [undefined] is [Got None]; reading
    a property of [null] raises a [TypeError]. *)
Inductive read_result (A : Type) : Type :=
| Got (v : option A)
| ReadOfNull.

Arguments Got {A} v.
Arguments ReadOfNull {A}.

(** What the engine provides. *)
Class JSRuntime : Type := {
  number : Type;
  (** [!!n]: false for [0], [-0] and [NaN]. *)
  number_truthy : number -> bool;
  (** [String(n)]. *)
  number_toString : number -> string;
  parseInt : string -> number;
  JSON_parse : string -> parse_result (json number);
  JSON_stringify : json number -> string;
  (** Message of the [TypeError] raised by [null.p], given [p]. *)
  msg_read_of_null : string -> string;
  (** Message of the [TypeError] raised when an object has no primitive
      value. *)
  msg_no_primitive : string;
}.

(** Own properties of an object, in insertion order. *)
Fixpoint assoc_get {V : Type} (k : string) (props : list (string * V)) : option V :=
  match props with
  | [] => None
  | (k', v) :: rest => if String.eqb k k' then Some v else assoc_get k rest
  end.

(** Assignment [o.k = v] on the property list: an existing key keeps its
    place, a new key goes last. *)
Fixpoint assoc_set {V : Type} (k : string) (v : V) (props : list (string * V))
  : list (string * V) :=
  match props with
  | [] => [(k, v)]
  | (k', v') :: rest =>
      if String.eqb k k' then (k, v) :: rest else (k', v') :: assoc_set k v rest
  end.

Definition join (sep : string) (parts : list string) : string :=
  match parts with
  | [] => EmptyString
  | p :: rest => fold_left (fun acc q => acc +:+ sep +:+ q) rest p
  end.

Section Values.
Context `{RT : JSRuntime}.

Definition value : Type := json number.

(** [x.k] for a key [k] that no built-in prototype defines: only an
    object's own properties can answer; a primitive, or an array asked for a
    non-index key, gives [undefined]; [null] throws. *)
Definition get_prop (x : value) (k : string) : read_result value :=
  match x with
  | JNull => ReadOfNull
  | JObj props => Got (assoc_get k props)
  | _ => Got None
  end.

(** [x.k = v] on an object. *)
Definition set_prop (x : value) (k : string) (v : value) : value :=
  match x with
  | JObj props => JObj (assoc_set k v props)
  | _ => x
  end.

Definition has_prop (x : value) (k : string) : bool :=
  match get_prop x k with
  | Got (Some _) => true
  | _ => false
  end.

(** ToBoolean. *)
Definition truthy (x : value) : bool :=
  match x with
  | JNull => false
  | JBool b => b
  | JNum n => number_truthy n
  | JStr s => Str.truthy s
  | JArr _ | JObj _ => true
  end.

(** ToBoolean of a possibly [undefined] value. *)
Definition truthy_opt (x : option value) : bool :=
  match x with
  | None => false
  | Some v => truthy v
  end.

Definition isArray (x : value) : bool :=
  match x with
  | JArr _ => true
  | _ => false
  end.

(** ToString, as a template literal applies it.  An array joins its
    elements with a comma, [null] elements printing as nothing.  An object
    prints as [[object Object]] through [Object.prototype.toString]; when
    it has an own property [toString] (which, coming from JSON, is never
    callable) no primitive value is found and a [TypeError] is raised:
    [None]. *)
Fixpoint toString (x : value) : option string :=
  match x with
  | JNull => Some "null"
  | JBool true => Some "true"
  | JBool false => Some "false"
  | JNum n => Some (number_toString n)
  | JStr s => Some s
  | JArr items =>
      let fix each (l : list value) : option (list string) :=
        match l with
        | [] => Some []
        | y :: rest =>
            match (match y with JNull => Some "" | _ => toString y end), each rest with
            | Some s, Some ss => Some (s :: ss)
            | _, _ => None
            end
        end in
      match each items with
      | Some parts => Some (join "," parts)
      | None => None
      end
  | JObj props =>
      match assoc_get "toString" props with
      | Some _ => None
      | None => Some "[object Object]"
      end
  end.

End Values.

(** ** The network *)

(** The arguments of one [fetch(url, {method, headers, body})]. *)
Record Request : Type := {
  url : string;
  method : string;
  headers : list (string * string);
  body : string;
}.

(** Outcome of [response.text()]: the body, or a rejection with the error's
    message. *)
Inductive BodyRead : Type :=
| BodyText (data : string)
| BodyError (message : string).

Record Response : Type := {
  status : N;
  statusText : string;
  (** [response.headers.get('Content-Type')], [None] for [null]. *)
  contentType : option string;
  text : BodyRead;
}.

(** [response.ok]. *)
Definition ok (r : Response) : bool :=
  ((200 <=? status r) && (status r <=? 299))%N.

(** Outcome of [await fetch(...)]: a response with any status, or a rejection
    (network failure) with the error's message. *)
Inductive FetchOutcome : Type :=
| Rejected (message : string)
| Responded (r : Response).

(** A computation that awaits [fetch]. *)
Inductive Proc (A : Type) : Type :=
| Done (a : A)
| Fetch (req : Request) (k : FetchOutcome -> Proc A).

Arguments Done {A} a.
Arguments Fetch {A} req k.

(** Runs a computation against a network, returning its result and the
    requests it issued, in order. *)
Fixpoint run {A : Type} (net : Request -> FetchOutcome) (p : Proc A)
  : A * list Request :=
  match p with
  | Done a => (a, [])
  | Fetch req k =>
      let (a, sent) := run net (k (net req)) in (a, req :: sent)
  end.

(** ** The session relay ([server.js]) *)

Module Relay.

(** [process.env.PORT || 3001]: the variable's text, or the number. *)
Inductive Port : Type :=
| PortEnv (s : string)
| PortNumber (n : N).

Record Config : Type := {
  PORT : Port;
  CUBE_API_URL : string;
  API_KEY : string;
}.

(** What the top level of the module does before it serves: it exits with
    a code after writing lines to standard error, or it listens. *)
Inductive Startup : Type :=
| Exit (code : Z) (stderr : list string)
| Listening (c : Config).

(** A variable of [process.env] that is set and not empty. *)
Definition env_get (env : gmap string string) (name : string) : option string :=
  match env !! name with
  | Some s => if Str.truthy s then Some s else None
  | None => None
  end.

Definition api_key_missing : list string :=
  [ "ERROR: API_KEY environment variable is required";
    "Please set it in a .env file or as an environment variable:";
    "  Create a .env file with: API_KEY=your-api-key-here";
    "  Or set it inline: API_KEY=your-api-key-here yarn start" ].

Definition cube_api_url_missing : list string :=
  [ "ERROR: CUBE_API_URL environment variable is required";
    "Please set it in a .env file or as an environment variable:";
    "  Create a .env file with: CUBE_API_URL=https://your-cube-instance.com";
    "  Or set it inline: CUBE_API_URL=https://your-cube-instance.com yarn start" ].

Definition startup (env : gmap string string) : Startup :=
  let port :=
    match env_get env "PORT" with
    | Some s => PortEnv s
    | None => PortNumber 3001
    end in
  match env_get env "API_KEY" with
  | None => Exit 1 api_key_missing
  | Some key =>
      match env_get env "CUBE_API_URL" with
      | None => Exit 1 cube_api_url_missing
      | Some base =>
          Listening {| PORT := port; CUBE_API_URL := base; API_KEY := key |}
      end
  end.

(** What the handler sends back: [res.status], the [Content-Type] header
    and the body. *)
Record Reply : Type := {
  res_status : N;
  res_contentType : string;
  res_body : string;
}.

Section Handler.
Context `{RT : JSRuntime}.

(** [res.status(500).json({ error: 'Failed to proxy request', message })]. *)
Definition proxy_failure (message : string) : Reply :=
  {| res_status := 500;
     res_contentType := "application/json";
     res_body :=
       JSON_stringify
         (JObj [("error", JStr "Failed to proxy request");
                ("message", JStr message)]) |}.

Definition upstream_request (c : Config) (req_body : value) : Request :=
  {| url := CUBE_API_URL c +:+ "/api/v1/embed/generate-session";
     method := "POST";
     headers := [("Content-Type", "application/json");
                 ("Authorization", "Api-Key " +:+ API_KEY c)];
     body := JSON_stringify req_body |}.

(** [app.post('/api/v1/embed/generate-session', ...)], given [req.body]
    as [express.json()] parsed it. *)
Definition generate_session (c : Config) (req_body : value) : Proc Reply :=
  Fetch (upstream_request c req_body)
    (fun response =>
       match response with
       | Rejected message => Done (proxy_failure message)
       | Responded r =>
           match text r with
           | BodyError message => Done (proxy_failure message)
           | BodyText data =>
               Done {| res_status := status r;
                       res_contentType :=
                         match contentType r with
                         | Some ct => if Str.truthy ct then ct else "application/json"
                         | None => "application/json"
                         end;
                       res_body := data |}
           end
       end).

End Handler.

End Relay.

(** ** The configuration form and the embed renderer ([src/App.tsx]) *)

Module App.

Definition STORAGE_KEY : string := "cube-embedding-config".

Definition newline : string := String (ascii_of_N 10) EmptyString.

Section Component.
Context `{RT : JSRuntime}.

(** [import.meta.env.VITE_CUBE_API_URL] and [window.location.origin]. *)
Variable CUBE_API_URL : string.
Variable LOCAL_SERVER_URL : string.

(** The component's state, one field per [useState]. *)
Record State : Type := {
  deploymentId : string;
  userIdType : string;
  externalId : string;
  internalId : string;
  embedType : string;
  dashboardId : string;
  userAttributes : string;
  loading : bool;
  error : option string;
  success : option string;
  sessionId : option value;
  embedUrl : option string;
  displayEmbedUrl : option string;
  iframeError : option string;
  embedAfterGeneration : bool;
  menuCollapsed : bool;
}.

(** The values the TypeScript types allow for the two radio groups. *)
Definition well_typed (st : State) : Prop :=
  (userIdType st = "external" \/ userIdType st = "internal") /\
  (embedType st = "chat" \/ embedType st = "dashboard" \/ embedType st = "app").

Definition setLoading (v : bool) (st : State) : State :=
  {| deploymentId := deploymentId st; userIdType := userIdType st;
     externalId := externalId st; internalId := internalId st;
     embedType := embedType st; dashboardId := dashboardId st;
     userAttributes := userAttributes st;
     loading := v;
     error := error st; success := success st; sessionId := sessionId st;
     embedUrl := embedUrl st; displayEmbedUrl := displayEmbedUrl st;
     iframeError := iframeError st;
     embedAfterGeneration := embedAfterGeneration st;
     menuCollapsed := menuCollapsed st |}.

Definition setError (v : option string) (st : State) : State :=
  {| deploymentId := deploymentId st; userIdType := userIdType st;
     externalId := externalId st; internalId := internalId st;
     embedType := embedType st; dashboardId := dashboardId st;
     userAttributes := userAttributes st;
     loading := loading st;
     error := v;
     success := success st; sessionId := sessionId st;
     embedUrl := embedUrl st; displayEmbedUrl := displayEmbedUrl st;
     iframeError := iframeError st;
     embedAfterGeneration := embedAfterGeneration st;
     menuCollapsed := menuCollapsed st |}.

Definition setSuccess (v : option string) (st : State) : State :=
  {| deploymentId := deploymentId st; userIdType := userIdType st;
     externalId := externalId st; internalId := internalId st;
     embedType := embedType st; dashboardId := dashboardId st;
     userAttributes := userAttributes st;
     loading := loading st; error := error st;
     success := v;
     sessionId := sessionId st;
     embedUrl := embedUrl st; displayEmbedUrl := displayEmbedUrl st;
     iframeError := iframeError st;
     embedAfterGeneration := embedAfterGeneration st;
     menuCollapsed := menuCollapsed st |}.

Definition setSessionId (v : option value) (st : State) : State :=
  {| deploymentId := deploymentId st; userIdType := userIdType st;
     externalId := externalId st; internalId := internalId st;
     embedType := embedType st; dashboardId := dashboardId st;
     userAttributes := userAttributes st;
     loading := loading st; error := error st; success := success st;
     sessionId := v;
     embedUrl := embedUrl st; displayEmbedUrl := displayEmbedUrl st;
     iframeError := iframeError st;
     embedAfterGeneration := embedAfterGeneration st;
     menuCollapsed := menuCollapsed st |}.

Definition setEmbedUrl (v : option string) (st : State) : State :=
  {| deploymentId := deploymentId st; userIdType := userIdType st;
     externalId := externalId st; internalId := internalId st;
     embedType := embedType st; dashboardId := dashboardId st;
     userAttributes := userAttributes st;
     loading := loading st; error := error st; success := success st;
     sessionId := sessionId st;
     embedUrl := v;
     displayEmbedUrl := displayEmbedUrl st;
     iframeError := iframeError st;
     embedAfterGeneration := embedAfterGeneration st;
     menuCollapsed := menuCollapsed st |}.

Definition setDisplayEmbedUrl (v : option string) (st : State) : State :=
  {| deploymentId := deploymentId st; userIdType := userIdType st;
     externalId := externalId st; internalId := internalId st;
     embedType := embedType st; dashboardId := dashboardId st;
     userAttributes := userAttributes st;
     loading := loading st; error := error st; success := success st;
     sessionId := sessionId st; embedUrl := embedUrl st;
     displayEmbedUrl := v;
     iframeError := iframeError st;
     embedAfterGeneration := embedAfterGeneration st;
     menuCollapsed := menuCollapsed st |}.

Definition setIframeError (v : option string) (st : State) : State :=
  {| deploymentId := deploymentId st; userIdType := userIdType st;
     externalId := externalId st; internalId := internalId st;
     embedType := embedType st; dashboardId := dashboardId st;
     userAttributes := userAttributes st;
     loading := loading st; error := error st; success := success st;
     sessionId := sessionId st; embedUrl := embedUrl st;
     displayEmbedUrl := displayEmbedUrl st;
     iframeError := v;
     embedAfterGeneration := embedAfterGeneration st;
     menuCollapsed := menuCollapsed st |}.

(** *** Persistence *)

(** The object literal [config] of the save effect. *)
Definition savedConfig (st : State) : value :=
  JObj [ ("deploymentId", JStr (deploymentId st));
         ("userIdType", JStr (userIdType st));
         ("externalId", JStr (externalId st));
         ("internalId", JStr (internalId st));
         ("embedType", JStr (embedType st));
         ("dashboardId", JStr (dashboardId st));
         ("userAttributes", JStr (userAttributes st));
         ("embedAfterGeneration", JBool (embedAfterGeneration st));
         ("menuCollapsed", JBool (menuCollapsed st)) ].

(** The store after line 89 of the save effect has returned:
    [localStorage.setItem(STORAGE_KEY, JSON.stringify(config))] performed,
    on [localStorage] as a map from keys to texts.  The whole effect, with
    the write that throws, is [saveEffect]. *)
Definition saveConfig (st : State) (localStorage : gmap string string)
  : gmap string string :=
  <[ STORAGE_KEY := JSON_stringify (savedConfig st) ]> localStorage.

(** [localStorage.setItem(key, value)] in a browser that may refuse the
    write (a full quota, storage switched off): [accepts] is the browser's
    decision for this store, key and value.  [None]: the call throws and
    the store is as it was. *)
Definition setItem (accepts : gmap string string -> string -> string -> bool)
    (key value : string) (localStorage : gmap string string)
  : option (gmap string string) :=
  if accepts localStorage key value
  then Some (<[ key := value ]> localStorage)
  else None.

(** The save effect (lines 76-93): the [try] writes the configuration, the
    [catch] of a write that throws logs a warning and leaves the store as it
    was. *)
Definition saveEffect (accepts : gmap string string -> string -> string -> bool)
    (st : State) (localStorage : gmap string string) : gmap string string :=
  match setItem accepts STORAGE_KEY (JSON_stringify (savedConfig st)) localStorage with
  | Some written => written
  | None => localStorage
  end.

(** [loadSavedConfig].  Every exception inside the [try] (a
    [SyntaxError] of [JSON.parse], the [TypeError] of reading
    [embedType] of [null]) ends in [return {}]. *)
Definition loadSavedConfig (localStorage : gmap string string) : value :=
  match localStorage !! STORAGE_KEY with
  | None => JObj []
  | Some saved =>
      if Str.truthy saved then
        match JSON_parse saved with
        | SyntaxError _ => JObj []
        | Parsed config =>
            match get_prop config "embedType" with
            | ReadOfNull => JObj []
            | Got (Some (JStr t)) =>
                if String.eqb t "home"
                then set_prop config "embedType" (JStr "app")
                else config
            | Got _ => config
            end
        end
      else JObj []
  end.

(** [saved.k || dflt] for a field declared [string].  [None]: the stored
    value is truthy and not a string, which the declared type of
    [SavedConfig] excludes. *)
Definition string_or (saved : value) (k dflt : string) : option string :=
  match get_prop saved k with
  | ReadOfNull => None
  | Got v =>
      if truthy_opt v then
        match v with
        | Some (JStr s) => Some s
        | _ => None
        end
      else Some dflt
  end.

(** [saved.k ?? dflt] for a field declared [boolean]. *)
Definition bool_nullish (saved : value) (k : string) (dflt : bool) : option bool :=
  match get_prop saved k with
  | ReadOfNull => None
  | Got None | Got (Some JNull) => Some dflt
  | Got (Some (JBool b)) => Some b
  | Got (Some _) => None
  end.

(** The [useState] initialisers, from what [loadSavedConfig] returned.
    [None] when a stored field does not have its declared type. *)
Definition initialState (saved : value) : option State :=
  d ← string_or saved "deploymentId" "";
  u ← string_or saved "userIdType" "external";
  e ← string_or saved "externalId" "test-user-123";
  i ← string_or saved "internalId" "";
  t ← string_or saved "embedType" "chat";
  b ← string_or saved "dashboardId" "";
  a ← string_or saved "userAttributes" "";
  g ← bool_nullish saved "embedAfterGeneration" true;
  m ← bool_nullish saved "menuCollapsed" false;
  Some {| deploymentId := d; userIdType := u; externalId := e;
          internalId := i; embedType := t; dashboardId := b;
          userAttributes := a;
          loading := false; error := None; success := None;
          sessionId := None; embedUrl := None; displayEmbedUrl := None;
          iframeError := None;
          embedAfterGeneration := g; menuCollapsed := m |}.

(** Mounting the component over a store. *)
Definition mount (localStorage : gmap string string) : option State :=
  initialState (loadSavedConfig localStorage).

(** *** Session generation *)

(** Lines 118-130 of [generateSession]: the attributes text is parsed
    only for an external user and only when it is not blank.  The result
    is [parsedAttributes] ([None] for [null]), or the message of the error
    the [catch] reports. *)
Definition parseUserAttributes (st : State) : option value + string :=
  if String.eqb (userIdType st) "external"
     && Str.truthy (Str.trim (userAttributes st))
  then
    match JSON_parse (userAttributes st) with
    | SyntaxError message => inr message
    | Parsed parsedAttributes =>
        if isArray parsedAttributes then inl (Some parsedAttributes)
        else inr "User attributes must be an array"
    end
  else inl None.

(** The object [requestBody], as assembled before the [fetch]. *)
Definition requestBody (st : State) (parsedAttributes : option value) : value :=
  let requestBody := JObj [("deploymentId", JNum (parseInt (deploymentId st)))] in
  let requestBody :=
    if String.eqb (userIdType st) "external" then
      let requestBody := set_prop requestBody "externalId" (JStr (externalId st)) in
      match parsedAttributes with
      | Some attrs =>
          if truthy attrs then set_prop requestBody "userAttributes" attrs
          else requestBody
      | None => requestBody
      end
    else set_prop requestBody "internalId" (JStr (internalId st)) in
  if String.eqb (embedType st) "app"
  then set_prop requestBody "creatorMode" (JBool true)
  else requestBody.

Definition sessionRequest (st : State) (parsedAttributes : option value) : Request :=
  {| url := LOCAL_SERVER_URL +:+ "/api/v1/embed/generate-session";
     method := "POST";
     headers := [("Content-Type", "application/json")];
     body := JSON_stringify (requestBody st parsedAttributes) |}.

(** The embed URL for a session identifier already converted to text. *)
Definition buildEmbedUrl (st : State) (newSessionId : string) : string :=
  if String.eqb (embedType st) "chat" then
    CUBE_API_URL +:+ "/embed/d/" +:+ deploymentId st
      +:+ "/chat?session=" +:+ newSessionId
  else if String.eqb (embedType st) "dashboard" then
    CUBE_API_URL +:+ "/embed/d/" +:+ deploymentId st
      +:+ "/dashboard/" +:+ dashboardId st +:+ "?session=" +:+ newSessionId
  else
    CUBE_API_URL +:+ "/embed/d/" +:+ deploymentId st
      +:+ "/app?session=" +:+ newSessionId.

(** The rest of the [try] block once the [fetch] has settled, with the
    [catch] that turns any exception into [setError(err.message)].  (Each
    exception that can arise here is an [Error] instance, so the other arm
    of [err instanceof Error ? ... : ...] is not reached.) *)
Definition onSettled (st : State) (sessionResponse : FetchOutcome) : State :=
  match sessionResponse with
  | Rejected message => setError (Some message) st
  | Responded r =>
      if negb (ok r) then
        match text r with
        | BodyError message => setError (Some message) st
        | BodyText errorData =>
            setError
              (Some ("Failed to generate session: " +:+ pretty (status r)
                     +:+ " " +:+ statusText r +:+ newline +:+ errorData)) st
        end
      else
        match text r with
        | BodyError message => setError (Some message) st
        | BodyText data =>
            match JSON_parse data with
            | SyntaxError message => setError (Some message) st
            | Parsed sessionData =>
                match get_prop sessionData "sessionId" with
                | ReadOfNull =>
                    setError (Some (msg_read_of_null "sessionId")) st
                | Got None =>
                    setError
                      (Some ("Session ID not found in response: "
                             +:+ JSON_stringify sessionData)) st
                | Got (Some newSessionId) =>
                    if negb (truthy newSessionId) then
                      setError
                        (Some ("Session ID not found in response: "
                               +:+ JSON_stringify sessionData)) st
                    else
                      let st := setSessionId (Some newSessionId) st in
                      match toString newSessionId with
                      | None => setError (Some msg_no_primitive) st
                      | Some sid =>
                          let url := buildEmbedUrl st sid in
                          let st := setDisplayEmbedUrl (Some url) st in
                          let st :=
                            if embedAfterGeneration st
                            then setIframeError None (setEmbedUrl (Some url) st)
                            else setEmbedUrl None st in
                          setSuccess
                            (Some ("Session generated successfully! Session ID: "
                                   +:+ sid)) st
                      end
                end
            end
        end
  end.

(** The block under [if (clearErrors)] at the top of [generateSession]. *)
Definition cleared (clearErrors : bool) (st : State) : State :=
  if clearErrors
  then setDisplayEmbedUrl None (setEmbedUrl None (setSuccess None (setError None st)))
  else st.

(** [generateSession(clearErrors)].  The function reads the field values
    of the render that created it ([st]) and writes through the setters. *)
Definition generateSession (clearErrors : bool) (st : State) : Proc State :=
  let st := cleared clearErrors st in
  if String.eqb (embedType st) "dashboard"
     && negb (Str.truthy (Str.trim (dashboardId st)))
  then Done (setError (Some "Dashboard Public ID is required for dashboard embedding") st)
  else if String.eqb (userIdType st) "external"
          && negb (Str.truthy (Str.trim (externalId st)))
  then Done (setError (Some "External ID is required") st)
  else if String.eqb (userIdType st) "internal"
          && negb (Str.truthy (Str.trim (internalId st)))
  then Done (setError (Some "Internal ID (email) is required") st)
  else
    match parseUserAttributes st with
    | inr message =>
        Done (setError (Some ("Invalid user attributes JSON: " +:+ message)) st)
    | inl parsedAttributes =>
        let st := setLoading true st in
        Fetch (sessionRequest st parsedAttributes)
          (fun sessionResponse =>
             Done (setLoading false (onSettled st sessionResponse)))
    end.

Definition handleSubmit (st : State) : Proc State :=
  generateSession true st.

Definition handleRefresh (st : State) : Proc State :=
  if negb (Str.truthy (deploymentId st)) then
    Done (setError (Some "Please fill in Deployment ID before refreshing") st)
  else if String.eqb (userIdType st) "external" && negb (Str.truthy (externalId st)) then
    Done (setError (Some "Please fill in External ID before refreshing") st)
  else if String.eqb (userIdType st) "internal" && negb (Str.truthy (internalId st)) then
    Done (setError (Some "Please fill in Internal ID before refreshing") st)
  else generateSession false st.

(** The two ways a session is asked for: the form's submit button and the
    refresh button over a displayed embed. *)
Inductive Action : Type :=
| Submit
| Refresh.

Definition handle (a : Action) (st : State) : Proc State :=
  match a with
  | Submit => handleSubmit st
  | Refresh => handleRefresh st
  end.

(** The three required-field checks of [generateSession], as one
    condition. *)
Definition required_fields_present (st : State) : bool :=
  negb (String.eqb (embedType st) "dashboard"
        && negb (Str.truthy (Str.trim (dashboardId st))))
  && negb (String.eqb (userIdType st) "external"
           && negb (Str.truthy (Str.trim (externalId st))))
  && negb (String.eqb (userIdType st) "internal"
           && negb (Str.truthy (Str.trim (internalId st)))).

(** Local validation fails, as [generateSession] decides it (lines
    103-130): the embed type is dashboard and the dashboard id is blank
    after [trim]; or the identity field that [userIdType] selects is blank
    after [trim]; or the user is external and the attributes text is not
    blank after [trim] (the guard of line 120) and is not JSON for an
    array. *)
Definition validation_fails (st : State) : Prop :=
  (embedType st = "dashboard" /\ Str.trim (dashboardId st) = EmptyString) \/
  (userIdType st = "external" /\ Str.trim (externalId st) = EmptyString) \/
  (userIdType st = "internal" /\ Str.trim (internalId st) = EmptyString) \/
  (userIdType st = "external" /\ Str.trim (userAttributes st) <> EmptyString /\
   forall items, JSON_parse (userAttributes st) <> Parsed (JArr items)).

(** Local validation fails, in the words of the specification (its
    section 4.1): the embed type is dashboard and the dashboard id is empty;
    or the identity field that [userIdType] selects is empty; or the user is
    external and the attributes text is non-empty and is not valid JSON or
    does not parse to an array.  This follows the specification, not the
    source; [validation_fails] is the source's. *)
Definition validation_fails_as_specified (st : State) : Prop :=
  (embedType st = "dashboard" /\ dashboardId st = EmptyString) \/
  (userIdType st = "external" /\ externalId st = EmptyString) \/
  (userIdType st = "internal" /\ internalId st = EmptyString) \/
  (userIdType st = "external" /\ userAttributes st <> EmptyString /\
   forall items, JSON_parse (userAttributes st) <> Parsed (JArr items)).

(** [s || dflt] on strings. *)
Definition or_default (s dflt : string) : string :=
  if Str.truthy s then s else dflt.

(** The legacy embed type [home] is read as [app]. *)
Definition migrate (t : string) : string :=
  if String.eqb t "home" then "app" else t.

(** The state a mount finds after [st] was saved: the persisted fields of
    [st] as the initialisers read them back, and nothing displayed. *)
Definition reloaded (st : State) : State :=
  {| deploymentId := deploymentId st;
     userIdType := or_default (userIdType st) "external";
     externalId := or_default (externalId st) "test-user-123";
     internalId := internalId st;
     embedType := or_default (migrate (embedType st)) "chat";
     dashboardId := dashboardId st;
     userAttributes := userAttributes st;
     loading := false; error := None; success := None;
     sessionId := None; embedUrl := None; displayEmbedUrl := None;
     iframeError := None;
     embedAfterGeneration := embedAfterGeneration st;
     menuCollapsed := menuCollapsed st |}.


End Component.

End App.

(** ** A reference runtime

    An executable instance of [JSRuntime]: numbers are the integers and
    [NaN], printed in decimal; [JSON.parse] follows the JSON grammar with
    integer number literals (a literal with a fraction or an exponent, or a
    [\u] escape above 255, is outside this instance and reported as a syntax
    error); error texts are in the style of V8. *)

Module Ref.

Inductive num : Type :=
| NaN
| Int (z : Z).

Definition num_truthy (n : num) : bool :=
  match n with
  | NaN => false
  | Int z => negb (z =? 0)%Z
  end.

Definition num_toString (n : num) : string :=
  match n with
  | NaN => "NaN"
  | Int z => pretty z
  end.

Definition digit_of (a : ascii) : option Z :=
  let n := Z.of_N (N_of_ascii a) in
  if ((48 <=? n) && (n <=? 57))%Z then Some (n - 48)%Z else None.

Definition hex_digit_of (a : ascii) : option Z :=
  let n := Z.of_N (N_of_ascii a) in
  if ((48 <=? n) && (n <=? 57))%Z then Some (n - 48)%Z
  else if ((97 <=? n) && (n <=? 102))%Z then Some (n - 87)%Z
  else if ((65 <=? n) && (n <=? 70))%Z then Some (n - 55)%Z
  else None.

(** The longest prefix of digits in the given radix, as a number;
    [None] when there is no digit. *)
Fixpoint digits (digit : ascii -> option Z) (radix : Z) (acc : option Z) (s : string)
  : option Z * string :=
  match s with
  | EmptyString => (acc, s)
  | String a rest =>
      match digit a with
      | Some d =>
          digits digit radix
            (Some (match acc with Some n => n * radix + d | None => d end)%Z) rest
      | None => (acc, s)
      end
  end.

(** [parseInt(s)] with no radix argument: leading white space, a sign, an
    optional [0x] prefix, then digits; [NaN] without a digit. *)
Definition ref_parseInt (s : string) : num :=
  let s := Str.trimStart s in
  let '(neg, s) :=
    match s with
    | String "-" rest => (true, rest)
    | String "+" rest => (false, rest)
    | _ => (false, s)
    end in
  let '(digit, radix, s) :=
    match s with
    | String "0" (String "x" rest) | String "0" (String "X" rest) =>
        (hex_digit_of, 16%Z, rest)
    | _ => (digit_of, 10%Z, s)
    end in
  match fst (digits digit radix None s) with
  | None => NaN
  | Some n => Int (if neg then - n else n)
  end.

Definition hex_char (n : N) : ascii :=
  ascii_of_N (if (n <? 10)%N then 48 + n else 87 + n).

Definition dquote : ascii := ascii_of_N 34.
Definition backslash : ascii := ascii_of_N 92.

(** QuoteJSONString, one code unit at a time. *)
Definition quote_char (a : ascii) : string :=
  let n := N_of_ascii a in
  if (n =? 8)%N then "\b"
  else if (n =? 9)%N then "\t"
  else if (n =? 10)%N then "\n"
  else if (n =? 12)%N then "\f"
  else if (n =? 13)%N then "\r"
  else if (n =? 34)%N then String backslash (String dquote EmptyString)
  else if (n =? 92)%N then String backslash (String backslash EmptyString)
  else if (n <? 32)%N then
    "\u00" +:+ String (hex_char (n / 16)) (String (hex_char (n mod 16)) EmptyString)
  else String a EmptyString.

Fixpoint quote_body (s : string) : string :=
  match s with
  | EmptyString => EmptyString
  | String a rest => quote_char a +:+ quote_body rest
  end.

Definition quote (s : string) : string :=
  String dquote (quote_body s +:+ String dquote EmptyString).

Fixpoint stringify (x : json num) : string :=
  match x with
  | JNull => "null"
  | JBool true => "true"
  | JBool false => "false"
  | JNum NaN => "null"
  | JNum (Int z) => pretty z
  | JStr s => quote s
  | JArr items =>
      "[" +:+ join "," (map stringify items) +:+ "]"
  | JObj props =>
      "{" +:+ join "," (map (fun kv => quote (fst kv) +:+ ":" +:+ stringify (snd kv)) props)
          +:+ "}"
  end.

(** The text of one property of an object. *)
Definition member (kv : string * json num) : string :=
  quote (fst kv) +:+ ":" +:+ stringify (snd kv).

(** A string or a boolean: the values of a saved configuration. *)
Definition flat (v : json num) : Prop :=
  match v with
  | JStr _ | JBool _ => True
  | _ => False
  end.

(** The parser answers with the value and the input left over, or with the
    input left at the point where it gave up. *)
Definition parsing (A : Type) : Type := (A * string) + string.

Fixpoint skip_ws (s : string) : string :=
  match s with
  | String a rest =>
      let n := N_of_ascii a in
      if ((n =? 32) || (n =? 9) || (n =? 10) || (n =? 13))%N then skip_ws rest else s
  | EmptyString => s
  end.

(** [s] without the prefix [p], when it starts with it. *)
Fixpoint strip_prefix (p s : string) : option string :=
  match p, s with
  | EmptyString, _ => Some s
  | String a p', String b s' => if Ascii.eqb a b then strip_prefix p' s' else None
  | String _ _, EmptyString => None
  end.

Definition word {A : Type} (w : string) (v : A) (s : string) : parsing A :=
  match strip_prefix w s with
  | Some rest => inl (v, rest)
  | None => inr s
  end.

Definition hex4 (a b c d : ascii) : option N :=
  match hex_digit_of a, hex_digit_of b, hex_digit_of c, hex_digit_of d with
  | Some x, Some y, Some z, Some w =>
      Some (Z.to_N (((x * 16 + y) * 16 + z) * 16 + w))
  | _, _, _, _ => None
  end.

(** The characters of a string literal, after its opening quote. *)
Fixpoint parse_chars (s : string) : parsing string :=
  match s with
  | EmptyString => inr s
  | String a rest =>
      let n := N_of_ascii a in
      if (n =? 34)%N then inl (EmptyString, rest)
      else if (n =? 92)%N then
        match rest with
        | String e rest' =>
            let simple (c : N) :=
              match parse_chars rest' with
              | inl (str, r) => inl (String (ascii_of_N c) str, r)
              | inr at_ => inr at_
              end in
            let m := N_of_ascii e in
            if (m =? 34)%N then simple 34%N
            else if (m =? 92)%N then simple 92%N
            else if (m =? 47)%N then simple 47%N
            else if (m =? 98)%N then simple 8%N
            else if (m =? 102)%N then simple 12%N
            else if (m =? 110)%N then simple 10%N
            else if (m =? 114)%N then simple 13%N
            else if (m =? 116)%N then simple 9%N
            else if (m =? 117)%N then
              match rest' with
              | String h1 (String h2 (String h3 (String h4 rest''))) =>
                  match hex4 h1 h2 h3 h4 with
                  | Some c =>
                      if (c <? 256)%N then
                        match parse_chars rest'' with
                        | inl (str, r) => inl (String (ascii_of_N c) str, r)
                        | inr at_ => inr at_
                        end
                      else inr rest
                  | None => inr rest'
                  end
              | _ => inr rest'
              end
            else inr rest
        | EmptyString => inr rest
        end
      else if (n <? 32)%N then inr s
      else
        match parse_chars rest with
        | inl (str, r) => inl (String a str, r)
        | inr at_ => inr at_
        end
  end.

(** An integer literal: an optional minus, then [0] or a digit sequence
    that does not start with [0]; no fraction and no exponent. *)
Definition parse_number (s : string) : parsing num :=
  let '(neg, s') :=
    match s with
    | String "-" rest => (true, rest)
    | _ => (false, s)
    end in
  match s' with
  | String "0" rest =>
      match rest with
      | String c _ =>
          if match digit_of c with Some _ => true | None => false end
             || Ascii.eqb c "." || Ascii.eqb c "e" || Ascii.eqb c "E"
          then inr rest else inl (Int 0, rest)
      | EmptyString => inl (Int 0, rest)
      end
  | _ =>
      match digits digit_of 10 None s' with
      | (Some n, rest) =>
          match rest with
          | String c _ =>
              if Ascii.eqb c "." || Ascii.eqb c "e" || Ascii.eqb c "E"
              then inr rest else inl (Int (if neg then - n else n), rest)
          | EmptyString => inl (Int (if neg then - n else n), rest)
          end
      | (None, rest) => inr rest
      end
  end.

Fixpoint parse_value (fuel : nat) (s : string) : parsing (json num) :=
  match fuel with
  | O => inr s
  | S fuel =>
      let s := skip_ws s in
      match s with
      | EmptyString => inr s
      | String a rest =>
          let n := N_of_ascii a in
          if (n =? 110)%N then word "null" JNull s
          else if (n =? 116)%N then word "true" (JBool true) s
          else if (n =? 102)%N then word "false" (JBool false) s
          else if (n =? 34)%N then
            match parse_chars rest with
            | inl (str, r) => inl (JStr str, r)
            | inr at_ => inr at_
            end
          else if (n =? 91)%N then
            match skip_ws rest with
            | String "]" r => inl (JArr [], r)
            | _ =>
                match parse_items fuel rest with
                | inl (items, r) => inl (JArr items, r)
                | inr at_ => inr at_
                end
            end
          else if (n =? 123)%N then
            match skip_ws rest with
            | String "}" r => inl (JObj [], r)
            | _ =>
                match parse_members fuel rest with
                | inl (members, r) =>
                    inl (JObj (fold_left (fun acc kv => assoc_set (fst kv) (snd kv) acc)
                                 members []), r)
                | inr at_ => inr at_
                end
            end
          else if (n =? 45)%N || match digit_of a with Some _ => true | None => false end then
            match parse_number s with
            | inl (z, r) => inl (JNum z, r)
            | inr at_ => inr at_
            end
          else inr s
      end
  end
with parse_items (fuel : nat) (s : string) : parsing (list (json num)) :=
  match fuel with
  | O => inr s
  | S fuel =>
      match parse_value fuel s with
      | inr at_ => inr at_
      | inl (v, r) =>
          match skip_ws r with
          | String "," r' =>
              match parse_items fuel r' with
              | inl (vs, r'') => inl (v :: vs, r'')
              | inr at_ => inr at_
              end
          | String "]" r' => inl ([v], r')
          | r' => inr r'
          end
      end
  end
with parse_members (fuel : nat) (s : string) : parsing (list (string * json num)) :=
  match fuel with
  | O => inr s
  | S fuel =>
      match skip_ws s with
      | String a rest =>
          if (N_of_ascii a =? 34)%N then
            match parse_chars rest with
            | inr at_ => inr at_
            | inl (k, r) =>
                match skip_ws r with
                | String ":" r1 =>
                    match parse_value fuel r1 with
                    | inr at_ => inr at_
                    | inl (v, r2) =>
                        match skip_ws r2 with
                        | String "," r3 =>
                            match parse_members fuel r3 with
                            | inl (kvs, r4) => inl ((k, v) :: kvs, r4)
                            | inr at_ => inr at_
                            end
                        | String "}" r3 => inl ([(k, v)], r3)
                        | r3 => inr r3
                        end
                    end
                | r1 => inr r1
                end
            end
          else inr (String a rest)
      | EmptyString => inr EmptyString
      end
  end.

(** The message of the [SyntaxError], from the input left at the error. *)
Definition syntax_error (input at_ : string) : string :=
  match at_ with
  | EmptyString => "Unexpected end of JSON input"
  | String a _ =>
      "Unexpected token " +:+ String a EmptyString +:+ " in JSON at position "
        +:+ pretty (String.length input - String.length at_)
  end.

Definition parse (input : string) : parse_result (json num) :=
  match parse_value (2 * String.length input + 2) input with
  | inr at_ => SyntaxError (syntax_error input at_)
  | inl (v, rest) =>
      match skip_ws rest with
      | EmptyString => Parsed v
      | at_ => SyntaxError (syntax_error input at_)
      end
  end.

#[export] Instance runtime : JSRuntime := {|
  number := num;
  number_truthy := num_truthy;
  number_toString := num_toString;
  parseInt := ref_parseInt;
  JSON_parse := parse;
  JSON_stringify := stringify;
  msg_read_of_null p := "Cannot read properties of null (reading '" +:+ p +:+ "')";
  msg_no_primitive := "Cannot convert object to primitive value";
|}.

End Ref.

(** ** Sample inputs, on the reference runtime *)

Module Example.
Import Ref.

Definition base : string := "https://cube.example".
Definition origin : string := "http://localhost:3001".

(** A freshly mounted form with the given field values. *)
Definition form (deploymentId userIdType externalId internalId embedType
                 dashboardId userAttributes : string) : App.State :=
  {| App.deploymentId := deploymentId; App.userIdType := userIdType;
     App.externalId := externalId; App.internalId := internalId;
     App.embedType := embedType; App.dashboardId := dashboardId;
     App.userAttributes := userAttributes;
     App.loading := false; App.error := None; App.success := None;
     App.sessionId := None; App.embedUrl := None; App.displayEmbedUrl := None;
     App.iframeError := None;
     App.embedAfterGeneration := true; App.menuCollapsed := false |}.

Definition chat : App.State :=
  form "32" "external" "test-user-123" "" "chat" "" "".

Definition app_internal : App.State :=
  form "32" "internal" "" "ada@example.com" "app" "" "[1,2".

Definition dashboard_without_id : App.State :=
  form "32" "external" "test-user-123" "" "dashboard" "" "".


Definition empty_external_id : App.State :=
  form "32" "internal" "" "ada@example.com" "chat" "" "".

(** A displayed embed, as the refresh button finds it. *)
Definition embedded (st : App.State) : App.State :=
  App.setEmbedUrl (Some "https://cube.example/embed/d/32/dashboard/pub-1?session=old")
    (App.setSessionId (Some (JStr "old")) st).

Definition response (status : N) (data : string) : Response :=
  {| status := status; statusText := EmptyString;
     contentType := Some "application/json";
     text := BodyText data |}.

(** A network that answers every request with the given status and body. *)
Definition answers (status : N) (data : string) : Request -> FetchOutcome :=
  fun _ => Responded (response status data).

Definition unreachable (message : string) : Request -> FetchOutcome :=
  fun _ => Rejected message.

(** The JSON text of [{ sessionId: 'abc123' }]. *)
Definition session_abc123 : string :=
  Ref.stringify (JObj [("sessionId", JStr "abc123")]).

(** The JSON text of the empty object. *)
Definition empty_object : string := Ref.stringify (JObj []).

Definition payload : json Ref.num :=
  JObj [("deploymentId", JNum (Ref.Int 32)); ("externalId", JStr "test-user-123")].

Definition relay (key : string) : Relay.Config :=
  {| Relay.PORT := Relay.PortNumber 3001;
     Relay.CUBE_API_URL := base;
     Relay.API_KEY := key |}.

Definition env_without_port : gmap string string :=
  {[ "API_KEY" := "secret"; "CUBE_API_URL" := "https://cube.example" ]}.

End Example.

(** ** The start-up log of the relay ([server.js], the [listen] callback) *)

Module Log.

Fixpoint take (n : nat) (s : string) : string :=
  match n, s with
  | S n', String a rest => String a (take n' rest)
  | _, _ => EmptyString
  end.

Fixpoint drop (n : nat) (s : string) : string :=
  match n, s with
  | S n', String _ rest => drop n' rest
  | _, _ => s
  end.

(** An index clamped into [0 .. len]. *)
Definition clamp (len : nat) (i : Z) : nat :=
  Z.to_nat (Z.min (Z.max i 0) (Z.of_nat len)).

(** [s.substring(start, stop)], [stop] being [None] when the argument is
    left out: both indices are clamped into the string and swapped when they
    are out of order. *)
Definition substring (start : Z) (stop : option Z) (s : string) : string :=
  let len := String.length s in
  let a := clamp len start in
  let b := match stop with Some e => clamp len e | None => len end in
  take (Nat.max a b - Nat.min a b) (drop (Nat.min a b) s).

(** What the log line prints after [API Key: ]: the template
    [${API_KEY.substring(0, 10)}...${API_KEY.substring(API_KEY.length - 10)}]. *)
Definition masked_api_key (API_KEY : string) : string :=
  substring 0 (Some 10%Z) API_KEY +:+ "..."
    +:+ substring (Z.of_nat (String.length API_KEY) - 10) None API_KEY.

End Log.

(** ** The build configuration ([vite.config.ts]) and the module's own check *)

Module Vite.

(** [a || b] on two variables of the environment. *)
Definition js_or (a b : option string) : option string :=
  match a with
  | Some s => if Str.truthy s then a else b
  | None => b
  end.

(** The parts of the returned configuration that depend on the environment,
    and the fixed ports and directories beside them.  [VITE_CUBE_API_URL] is
    the string that [define] substitutes for
    [import.meta.env.VITE_CUBE_API_URL]. *)
Record Config : Type := {
  VITE_CUBE_API_URL : string;
  server_port : N;
  proxy_target : string;
  proxy_changeOrigin : bool;
  build_outDir : string;
  build_emptyOutDir : bool;
}.

Definition missing_url : string :=
  "CUBE_API_URL environment variable is required. Please set it in your .env file or as an environment variable.".

(** The function given to [defineConfig], over the variables [loadEnv]
    returned; [inr] is the message of the error it throws. *)
Definition defineConfig (env : gmap string string) : Config + string :=
  let cubeApiUrl := js_or (env !! "VITE_CUBE_API_URL") (env !! "CUBE_API_URL") in
  match cubeApiUrl with
  | None => inr missing_url
  | Some u =>
      if Str.truthy u then
        inl {| VITE_CUBE_API_URL := u;
               server_port := 3002;
               proxy_target :=
                 match js_or (env !! "CUBE_API_URL") cubeApiUrl with
                 | Some t => t
                 | None => u
                 end;
               proxy_changeOrigin := true;
               build_outDir := "dist";
               build_emptyOutDir := true |}
      else inr missing_url
  end.

Definition missing_url_in_app : string :=
  "CUBE_API_URL environment variable is required. Please set it in your .env file or build configuration.".

(** Lines 10-15 of [App.tsx]: the module reads the substituted constant and
    throws when it is falsy. *)
Definition app_module_init (VITE_CUBE_API_URL : option string) : string + string :=
  match VITE_CUBE_API_URL with
  | Some u => if Str.truthy u then inl u else inr missing_url_in_app
  | None => inr missing_url_in_app
  end.

End Vite.

(** ** The page: field handlers, what is offered, the save effect *)

Module Ui.

Section Ui.
Context `{RT : JSRuntime}.
Variable CUBE_API_URL : string.
Variable LOCAL_SERVER_URL : string.
(** The browser's decision on each write to [localStorage]. *)
Variable accepts : gmap string string -> string -> string -> bool.

Definition setDeploymentId (v : string) (st : App.State) : App.State :=
  {| App.deploymentId := v;
     App.userIdType := App.userIdType st;
     App.externalId := App.externalId st; App.internalId := App.internalId st;
     App.embedType := App.embedType st; App.dashboardId := App.dashboardId st;
     App.userAttributes := App.userAttributes st;
     App.loading := App.loading st; App.error := App.error st;
     App.success := App.success st; App.sessionId := App.sessionId st;
     App.embedUrl := App.embedUrl st; App.displayEmbedUrl := App.displayEmbedUrl st;
     App.iframeError := App.iframeError st;
     App.embedAfterGeneration := App.embedAfterGeneration st;
     App.menuCollapsed := App.menuCollapsed st |}.

Definition setUserIdType (v : string) (st : App.State) : App.State :=
  {| App.deploymentId := App.deploymentId st;
     App.userIdType := v;
     App.externalId := App.externalId st; App.internalId := App.internalId st;
     App.embedType := App.embedType st; App.dashboardId := App.dashboardId st;
     App.userAttributes := App.userAttributes st;
     App.loading := App.loading st; App.error := App.error st;
     App.success := App.success st; App.sessionId := App.sessionId st;
     App.embedUrl := App.embedUrl st; App.displayEmbedUrl := App.displayEmbedUrl st;
     App.iframeError := App.iframeError st;
     App.embedAfterGeneration := App.embedAfterGeneration st;
     App.menuCollapsed := App.menuCollapsed st |}.

Definition setExternalId (v : string) (st : App.State) : App.State :=
  {| App.deploymentId := App.deploymentId st; App.userIdType := App.userIdType st;
     App.externalId := v;
     App.internalId := App.internalId st;
     App.embedType := App.embedType st; App.dashboardId := App.dashboardId st;
     App.userAttributes := App.userAttributes st;
     App.loading := App.loading st; App.error := App.error st;
     App.success := App.success st; App.sessionId := App.sessionId st;
     App.embedUrl := App.embedUrl st; App.displayEmbedUrl := App.displayEmbedUrl st;
     App.iframeError := App.iframeError st;
     App.embedAfterGeneration := App.embedAfterGeneration st;
     App.menuCollapsed := App.menuCollapsed st |}.

Definition setInternalId (v : string) (st : App.State) : App.State :=
  {| App.deploymentId := App.deploymentId st; App.userIdType := App.userIdType st;
     App.externalId := App.externalId st;
     App.internalId := v;
     App.embedType := App.embedType st; App.dashboardId := App.dashboardId st;
     App.userAttributes := App.userAttributes st;
     App.loading := App.loading st; App.error := App.error st;
     App.success := App.success st; App.sessionId := App.sessionId st;
     App.embedUrl := App.embedUrl st; App.displayEmbedUrl := App.displayEmbedUrl st;
     App.iframeError := App.iframeError st;
     App.embedAfterGeneration := App.embedAfterGeneration st;
     App.menuCollapsed := App.menuCollapsed st |}.

Definition setEmbedType (v : string) (st : App.State) : App.State :=
  {| App.deploymentId := App.deploymentId st; App.userIdType := App.userIdType st;
     App.externalId := App.externalId st; App.internalId := App.internalId st;
     App.embedType := v;
     App.dashboardId := App.dashboardId st;
     App.userAttributes := App.userAttributes st;
     App.loading := App.loading st; App.error := App.error st;
     App.success := App.success st; App.sessionId := App.sessionId st;
     App.embedUrl := App.embedUrl st; App.displayEmbedUrl := App.displayEmbedUrl st;
     App.iframeError := App.iframeError st;
     App.embedAfterGeneration := App.embedAfterGeneration st;
     App.menuCollapsed := App.menuCollapsed st |}.

Definition setDashboardId (v : string) (st : App.State) : App.State :=
  {| App.deploymentId := App.deploymentId st; App.userIdType := App.userIdType st;
     App.externalId := App.externalId st; App.internalId := App.internalId st;
     App.embedType := App.embedType st;
     App.dashboardId := v;
     App.userAttributes := App.userAttributes st;
     App.loading := App.loading st; App.error := App.error st;
     App.success := App.success st; App.sessionId := App.sessionId st;
     App.embedUrl := App.embedUrl st; App.displayEmbedUrl := App.displayEmbedUrl st;
     App.iframeError := App.iframeError st;
     App.embedAfterGeneration := App.embedAfterGeneration st;
     App.menuCollapsed := App.menuCollapsed st |}.

Definition setUserAttributes (v : string) (st : App.State) : App.State :=
  {| App.deploymentId := App.deploymentId st; App.userIdType := App.userIdType st;
     App.externalId := App.externalId st; App.internalId := App.internalId st;
     App.embedType := App.embedType st; App.dashboardId := App.dashboardId st;
     App.userAttributes := v;
     App.loading := App.loading st; App.error := App.error st;
     App.success := App.success st; App.sessionId := App.sessionId st;
     App.embedUrl := App.embedUrl st; App.displayEmbedUrl := App.displayEmbedUrl st;
     App.iframeError := App.iframeError st;
     App.embedAfterGeneration := App.embedAfterGeneration st;
     App.menuCollapsed := App.menuCollapsed st |}.

Definition setEmbedAfterGeneration (v : bool) (st : App.State) : App.State :=
  {| App.deploymentId := App.deploymentId st; App.userIdType := App.userIdType st;
     App.externalId := App.externalId st; App.internalId := App.internalId st;
     App.embedType := App.embedType st; App.dashboardId := App.dashboardId st;
     App.userAttributes := App.userAttributes st;
     App.loading := App.loading st; App.error := App.error st;
     App.success := App.success st; App.sessionId := App.sessionId st;
     App.embedUrl := App.embedUrl st; App.displayEmbedUrl := App.displayEmbedUrl st;
     App.iframeError := App.iframeError st;
     App.embedAfterGeneration := v;
     App.menuCollapsed := App.menuCollapsed st |}.

Definition setMenuCollapsed (v : bool) (st : App.State) : App.State :=
  {| App.deploymentId := App.deploymentId st; App.userIdType := App.userIdType st;
     App.externalId := App.externalId st; App.internalId := App.internalId st;
     App.embedType := App.embedType st; App.dashboardId := App.dashboardId st;
     App.userAttributes := App.userAttributes st;
     App.loading := App.loading st; App.error := App.error st;
     App.success := App.success st; App.sessionId := App.sessionId st;
     App.embedUrl := App.embedUrl st; App.displayEmbedUrl := App.displayEmbedUrl st;
     App.iframeError := App.iframeError st;
     App.embedAfterGeneration := App.embedAfterGeneration st;
     App.menuCollapsed := v |}.

(** [onValueChange] of the user-id radio group: switching to the internal
    kind also empties the attributes text. *)
Definition onUserIdTypeChange (value : string) (st : App.State) : App.State :=
  let st := setUserIdType value st in
  if String.eqb value "internal" then setUserAttributes EmptyString st else st.

Definition iframe_failed : string :=
  "Failed to load iframe content. Check the console for details.".

(** [x ? ... : ...] and [x && ...] on a [string | null] of the state. *)
Definition shown (x : option string) : bool :=
  match x with
  | Some s => Str.truthy s
  | None => false
  end.

(** What the page can raise: the inputs, radio groups and buttons of the JSX
    and the two events of the iframe. *)
Inductive Event : Type :=
| DeploymentIdInput (v : string)
| UserIdTypePick (value : string)
| ExternalIdInput (v : string)
| InternalIdInput (v : string)
| EmbedTypePick (value : string)
| DashboardIdInput (v : string)
| UserAttributesInput (v : string)
| EmbedAfterGenerationToggle (checked : bool)
| MenuCollapse
| MenuOpen
| FormSubmit
| RefreshClick
| IframeLoadFailed
| IframeLoaded.

(** Whether the page rendered from [st] offers the event: a radio group
    offers its items; the external id and the attributes inputs are rendered
    for an external user and the internal id input otherwise; the dashboard
    id input under the dashboard embed type; the collapse arrow when the menu
    is open and the menu button when it is collapsed; the submit button is
    disabled while loading; the refresh button and the iframe exist when
    [embedUrl] is set.  (The browser's own checks of required inputs, which
    can only withhold a submit, are not part of this.) *)
Definition offered (st : App.State) (ev : Event) : bool :=
  match ev with
  | DeploymentIdInput _ => true
  | UserIdTypePick value => String.eqb value "external" || String.eqb value "internal"
  | ExternalIdInput _ => String.eqb (App.userIdType st) "external"
  | InternalIdInput _ => negb (String.eqb (App.userIdType st) "external")
  | EmbedTypePick value =>
      String.eqb value "chat" || String.eqb value "dashboard" || String.eqb value "app"
  | DashboardIdInput _ => String.eqb (App.embedType st) "dashboard"
  | UserAttributesInput _ => String.eqb (App.userIdType st) "external"
  | EmbedAfterGenerationToggle _ => true
  | MenuCollapse => negb (App.menuCollapsed st)
  | MenuOpen => App.menuCollapsed st
  | FormSubmit => negb (App.loading st)
  | RefreshClick => shown (App.embedUrl st)
  | IframeLoadFailed => shown (App.embedUrl st)
  | IframeLoaded => shown (App.embedUrl st)
  end.

(** The handler of each event; the two asynchronous ones run to their end
    against the network. *)
Definition handleEvent (net : Request -> FetchOutcome) (ev : Event) (st : App.State)
  : App.State :=
  match ev with
  | DeploymentIdInput v => setDeploymentId v st
  | UserIdTypePick value => onUserIdTypeChange value st
  | ExternalIdInput v => setExternalId v st
  | InternalIdInput v => setInternalId v st
  | EmbedTypePick value => setEmbedType value st
  | DashboardIdInput v => setDashboardId v st
  | UserAttributesInput v => setUserAttributes v st
  | EmbedAfterGenerationToggle checked => setEmbedAfterGeneration checked st
  | MenuCollapse => setMenuCollapsed true st
  | MenuOpen => setMenuCollapsed false st
  | FormSubmit => fst (run net (App.handleSubmit CUBE_API_URL LOCAL_SERVER_URL st))
  | RefreshClick => fst (run net (App.handleRefresh CUBE_API_URL LOCAL_SERVER_URL st))
  | IframeLoadFailed => App.setIframeError (Some iframe_failed) st
  | IframeLoaded => App.setIframeError None st
  end.

(** The dependency array of the save effect did not change between two
    renders. *)
Definition deps_unchanged (st st' : App.State) : bool :=
  String.eqb (App.deploymentId st) (App.deploymentId st')
  && String.eqb (App.userIdType st) (App.userIdType st')
  && String.eqb (App.externalId st) (App.externalId st')
  && String.eqb (App.internalId st) (App.internalId st')
  && String.eqb (App.embedType st) (App.embedType st')
  && String.eqb (App.dashboardId st) (App.dashboardId st')
  && String.eqb (App.userAttributes st) (App.userAttributes st')
  && Bool.eqb (App.embedAfterGeneration st) (App.embedAfterGeneration st')
  && Bool.eqb (App.menuCollapsed st) (App.menuCollapsed st').

(** The component with the store it writes to. *)
Definition World : Type := App.State * gmap string string.

(** The save effect after a render: it runs when a dependency changed. *)
Definition after_render (st st' : App.State) (localStorage : gmap string string)
  : gmap string string :=
  if deps_unchanged st st' then localStorage
  else App.saveEffect accepts st' localStorage.

(** First render: the initialisers, then the save effect. *)
Definition mounted (localStorage : gmap string string) : option World :=
  match App.mount localStorage with
  | Some st => Some (st, App.saveEffect accepts st localStorage)
  | None => None
  end.

Definition dispatch (net : Request -> FetchOutcome) (ev : Event) (w : World) : World :=
  let st' := handleEvent net ev (fst w) in
  (st', after_render (fst w) st' (snd w)).

(** The worlds a page started in [w0] can be brought to by events it
    offers, each against whatever network it meets. *)
Inductive reachable (w0 : World) : World -> Prop :=
| reach_start : reachable w0 w0
| reach_event (w : World) (net : Request -> FetchOutcome) (ev : Event) :
    reachable w0 w -> offered (fst w) ev = true -> reachable w0 (dispatch net ev w).

(** The browser accepts every write of a configuration under the
    component's key. *)
Definition accepts_every_save : Prop :=
  forall (st : App.State) (localStorage : gmap string string),
    accepts localStorage App.STORAGE_KEY (JSON_stringify (App.savedConfig st)) = true.

(** The store holds the configuration on screen. *)
Definition in_sync (w : World) : Prop :=
  snd w !! App.STORAGE_KEY = Some (JSON_stringify (App.savedConfig (fst w))).

(** An internal user has no attributes text. *)
Definition no_attributes_when_internal (st : App.State) : Prop :=
  App.userIdType st = "internal" -> App.userAttributes st = EmptyString.

(** The state of a first visit: what the initialisers give without a saved
    configuration. *)
Definition defaults : App.State :=
  {| App.deploymentId := EmptyString; App.userIdType := "external";
     App.externalId := "test-user-123"; App.internalId := EmptyString;
     App.embedType := "chat"; App.dashboardId := EmptyString;
     App.userAttributes := EmptyString;
     App.loading := false; App.error := None; App.success := None;
     App.sessionId := None; App.embedUrl := None; App.displayEmbedUrl := None;
     App.iframeError := None;
     App.embedAfterGeneration := true; App.menuCollapsed := false |}.

End Ui.

End Ui.

(** ** Further sample inputs, on the reference runtime *)

Module Sample.
Import Ref.

Definition key16 : string := "0123456789abcdef".

(** An environment with the key, the upstream and the page's override. *)
Definition env_with_override : gmap string string :=
  {[ "API_KEY" := "secret";
     "CUBE_API_URL" := "https://cube.example";
     "VITE_CUBE_API_URL" := "https://embed.example" ]}.

Definition build_with_override : Vite.Config :=
  {| Vite.VITE_CUBE_API_URL := "https://embed.example";
     Vite.server_port := 3002;
     Vite.proxy_target := "https://cube.example";
     Vite.proxy_changeOrigin := true;
     Vite.build_outDir := "dist";
     Vite.build_emptyOutDir := true |}.

Definition relay_with_override : Relay.Config :=
  {| Relay.PORT := Relay.PortNumber 3001;
     Relay.CUBE_API_URL := "https://cube.example";
     Relay.API_KEY := "secret" |}.

(** An external user whose attributes are an array of numbers. *)
Definition numbers_as_attributes : App.State :=
  Example.form "32" "external" "test-user-123" EmptyString "chat" EmptyString "[1,2]".

(** The JSON text of [{ sessionId: { toString: 1 } }]. *)
Definition session_without_text : string :=
  Ref.stringify (JObj [("sessionId", JObj [("toString", JNum (Ref.Int 1))])]).

(** The JSON text of a configuration saved with the embed type [home]. *)
Definition legacy_text : string :=
  Ref.stringify (JObj [("deploymentId", JStr "32"); ("embedType", JStr "home");
                       ("embedAfterGeneration", JBool false)]).

Definition legacy_store : gmap string string :=
  {[ App.STORAGE_KEY := legacy_text ]}.

Definition broken_store : gmap string string :=
  {[ App.STORAGE_KEY := "{oops" ]}.

(** A browser with room for every write, and one whose storage is full. *)
Definition roomy : gmap string string -> string -> string -> bool :=
  fun _ _ _ => true.

Definition full : gmap string string -> string -> string -> bool :=
  fun _ _ _ => false.

(** A first visit, and the same visit after the attributes were typed, the
    user kind switched to internal and an internal id typed. *)
Definition first_visit : Ui.World :=
  (Ui.defaults, App.saveEffect roomy Ui.defaults ∅).

Definition later_visit : Ui.World :=
  Ui.dispatch Example.base Example.origin roomy (Example.unreachable "offline")
    (Ui.InternalIdInput "ada@example.com")
    (Ui.dispatch Example.base Example.origin roomy (Example.unreachable "offline")
       (Ui.UserIdTypePick "internal")
       (Ui.dispatch Example.base Example.origin roomy (Example.unreachable "offline")
          (Ui.UserAttributesInput "[1]") first_visit)).

(** A visit that starts from a stored internal user whose attributes text
    was left over, and types an internal id. *)
Definition stale_text : string :=
  Ref.stringify (JObj [("userIdType", JStr "internal");
                       ("userAttributes", JStr "[1]")]).

Definition stale_store : gmap string string :=
  {[ App.STORAGE_KEY := stale_text ]}.

Definition stale_start : App.State :=
  Example.form EmptyString "internal" "test-user-123" EmptyString "chat" EmptyString "[1]".

Definition stale_first_visit : Ui.World :=
  (stale_start, App.saveEffect roomy stale_start stale_store).

Definition stale_later_visit : Ui.World :=
  Ui.dispatch Example.base Example.origin roomy (Example.unreachable "offline")
    (Ui.InternalIdInput "ada@example.com") stale_first_visit.





(** A displayed chat embed whose iframe failed to load. *)
Definition failed_iframe : App.State :=
  App.setIframeError (Some Ui.iframe_failed) (Example.embedded Example.chat).

End Sample.

(** * Properties *)

(** ** Blank strings *)

Section Blank.

Lemma all_whitespace_rev_app s acc :
  Str.all_whitespace (String.rev_app s acc)
  = Str.all_whitespace s && Str.all_whitespace acc.
Proof.
  revert acc. induction s as [|a s IH]; intros acc; [reflexivity|].
  cbn [String.rev_app Str.all_whitespace]. rewrite IH. cbn [Str.all_whitespace].
  destruct (Str.is_whitespace a), (Str.all_whitespace s); reflexivity.
Qed.

Lemma all_whitespace_rev s :
  Str.all_whitespace (String.rev s) = Str.all_whitespace s.
Proof. unfold String.rev. rewrite all_whitespace_rev_app. apply andb_true_r. Qed.

Lemma trimStart_blank s :
  Str.all_whitespace s = true -> Str.trimStart s = EmptyString.
Proof.
  induction s as [|a s IH]; [reflexivity|].
  cbn [Str.all_whitespace Str.trimStart]. intros H.
  apply andb_prop in H as [-> H]. exact (IH H).
Qed.

Lemma trimStart_not_blank s :
  Str.all_whitespace s = false -> Str.all_whitespace (Str.trimStart s) = false.
Proof.
  induction s as [|a s IH]; [discriminate|].
  cbn [Str.all_whitespace Str.trimStart].
  destruct (Str.is_whitespace a) eqn:Ha; [exact IH|].
  intros _. cbn [Str.all_whitespace]. rewrite Ha. reflexivity.
Qed.

Lemma trim_blank s :
  Str.trim s = EmptyString <-> Str.all_whitespace s = true.
Proof.
  split.
  - intros Htrim. destruct (Str.all_whitespace s) eqn:Hs; [reflexivity|].
    apply trimStart_not_blank in Hs.
    rewrite <- all_whitespace_rev in Hs. apply trimStart_not_blank in Hs.
    rewrite <- all_whitespace_rev in Hs.
    unfold Str.trim, Str.trimEnd in Htrim. rewrite Htrim in Hs. discriminate.
  - intros Hs. unfold Str.trim. rewrite (trimStart_blank s Hs). reflexivity.
Qed.
End Blank.

(** ** Reading a property *)

Section Reading.
Context `{RT : JSRuntime}.

(** Reading a property throws for [null] and for nothing else. *)
Lemma get_prop_Got (x : value) (k : string) :
  x <> JNull <-> exists v, get_prop x k = Got v.
Proof.
  destruct x; simpl; split; try congruence; try (intros _; eexists; reflexivity).
  intros [v Hv]. discriminate.
Qed.

End Reading.

(** ** Start-up of the relay *)

Section Startup.

Lemma env_get_Some env name v :
  Relay.env_get env name = Some v <-> env !! name = Some v /\ v <> EmptyString.
Proof.
  unfold Relay.env_get. destruct (env !! name) as [s|]; [|split; [|intros []]; discriminate].
  destruct s; simpl.
  - split; [discriminate|]. intros [H Hne]. congruence.
  - split.
    + intros H. injection H as <-. split; [reflexivity|discriminate].
    + intros [H _]. exact H.
Qed.

Lemma env_get_None env name :
  Relay.env_get env name = None <-> env !! name = None \/ env !! name = Some EmptyString.
Proof.
  unfold Relay.env_get. destruct (env !! name) as [s|]; [|tauto].
  destruct s; simpl; split; try tauto; try discriminate.
  intros [|]; discriminate.
Qed.

Lemma startup_env_without_port :
  Relay.startup Example.env_without_port =
    Relay.Listening {| Relay.PORT := Relay.PortNumber 3001;
                       Relay.CUBE_API_URL := "https://cube.example";
                       Relay.API_KEY := "secret" |}.
Proof. vm_compute. reflexivity. Qed.

(** C9, counterexample: with the key and the upstream URL set and no
    [PORT], start-up is not fatal: the relay listens on 3001. *)
Lemma C9_port_is_optional :
  Example.env_without_port !! "PORT" = None /\
  (exists c, Relay.startup Example.env_without_port = Relay.Listening c
             /\ Relay.PORT c = Relay.PortNumber 3001) /\
  ~ (exists code stderr, Relay.startup Example.env_without_port = Relay.Exit code stderr).
Proof.
  rewrite startup_env_without_port. split; [vm_compute; reflexivity|]. split.
  - eexists. split; reflexivity.
  - intros (code & stderr & E). discriminate.
Qed.

(** C9, as amended: the API key and the upstream base URL are required at
    start-up: the process exits exactly when one of them is absent (or
    empty), with code 1 and error lines whose first names the variable;
    otherwise the relay listens, on [PORT] when that is set and on 3001 when
    it is not. *)
Theorem C9_startup_requirements (env : gmap string string) :
  (forall code stderr,
      Relay.startup env = Relay.Exit code stderr <->
      code = 1%Z /\
      ((Relay.env_get env "API_KEY" = None /\ stderr = Relay.api_key_missing) \/
       (Relay.env_get env "API_KEY" <> None /\
        Relay.env_get env "CUBE_API_URL" = None /\
        stderr = Relay.cube_api_url_missing))) /\
  (forall c,
      Relay.startup env = Relay.Listening c <->
      Relay.env_get env "API_KEY" = Some (Relay.API_KEY c) /\
      Relay.env_get env "CUBE_API_URL" = Some (Relay.CUBE_API_URL c) /\
      Relay.PORT c =
        match Relay.env_get env "PORT" with
        | Some p => Relay.PortEnv p
        | None => Relay.PortNumber 3001
        end) /\
  hd_error Relay.api_key_missing =
    Some "ERROR: API_KEY environment variable is required" /\
  hd_error Relay.cube_api_url_missing =
    Some "ERROR: CUBE_API_URL environment variable is required".
Proof.
  split; [|split; [|split; reflexivity]].
  - intros code stderr. unfold Relay.startup.
    destruct (Relay.env_get env "API_KEY") as [key|].
    + destruct (Relay.env_get env "CUBE_API_URL") as [base|].
      * split; [discriminate|]. intros [_ [[E _]|[_ [E _]]]]; discriminate.
      * split.
        -- intros E. injection E as <- <-. split; [reflexivity|].
           right. repeat split. discriminate.
        -- intros [-> [[E _]|[_ [_ ->]]]]; [discriminate|reflexivity].
    + split.
      * intros E. injection E as <- <-. split; [reflexivity|]. left. split; reflexivity.
      * intros [-> [[_ ->]|[E _]]]; [reflexivity|]. exfalso. apply E. reflexivity.
  - intros c. unfold Relay.startup.
    destruct (Relay.env_get env "API_KEY") as [key|].
    + destruct (Relay.env_get env "CUBE_API_URL") as [base|].
      * split.
        -- intros E. injection E as <-. simpl. repeat split.
        -- intros (Hk & Hb & Hp). destruct c as [p u k]. simpl in *.
           injection Hk as ->. injection Hb as ->. rewrite Hp. reflexivity.
      * split; [discriminate|]. intros (_ & E & _). discriminate.
    + split; [discriminate|]. intros (E & _). discriminate.
Qed.

End Startup.

(** ** The relay's handler *)

Section RelayHandler.
Context `{RT : JSRuntime}.

(** The relay issues exactly one upstream request, whatever the network
    does with it. *)
Lemma relay_one_request (net : Request -> FetchOutcome) c req_body :
  snd (run net (Relay.generate_session c req_body))
  = [Relay.upstream_request c req_body].
Proof.
  simpl. destruct (net _) as [message|r]; [reflexivity|].
  destruct (text r); reflexivity.
Qed.

(** C2: whatever status the upstream answers with, the relay has sent it
    one POST whose body is the serialisation of the payload it received,
    with the [Authorization: Api-Key ...] header added, and it answers its
    caller with the upstream's status code and body. *)
Theorem C2_relay_is_transparent
    (c : Relay.Config) (req_body : value) (r : Response) (data : string) :
  text r = BodyText data ->
  exists req reply,
    run (fun _ => Responded r) (Relay.generate_session c req_body) = (reply, [req])
    /\ url req = Relay.CUBE_API_URL c +:+ "/api/v1/embed/generate-session"
    /\ method req = "POST"
    /\ body req = JSON_stringify req_body
    /\ headers req = [("Content-Type", "application/json");
                      ("Authorization", "Api-Key " +:+ Relay.API_KEY c)]
    /\ Relay.res_status reply = status r
    /\ Relay.res_body reply = data
    /\ Relay.res_contentType reply
       = match contentType r with
         | Some ct => if Str.truthy ct then ct else "application/json"
         | None => "application/json"
         end.
Proof.
  intros Htext. simpl. rewrite Htext.
  eexists. eexists. split; [reflexivity|]. simpl. repeat split.
Qed.


End RelayHandler.

(** ** The form: validation, payload, URL, refresh *)

Section Form.
Context `{RT : JSRuntime}.
Variable CUBE_API_URL : string.
Variable LOCAL_SERVER_URL : string.

Local Abbreviation generateSession := (App.generateSession CUBE_API_URL LOCAL_SERVER_URL).
Local Abbreviation handleRefresh := (App.handleRefresh CUBE_API_URL LOCAL_SERVER_URL).
Local Abbreviation onSettled := (App.onSettled CUBE_API_URL).
Local Abbreviation sessionRequest := (App.sessionRequest LOCAL_SERVER_URL).

Lemma requestBody_cleared clearErrors st attrs :
  App.requestBody (App.cleared clearErrors st) attrs = App.requestBody st attrs.
Proof. destruct clearErrors; reflexivity. Qed.

Lemma parseUserAttributes_cleared clearErrors st :
  App.parseUserAttributes (App.cleared clearErrors st) = App.parseUserAttributes st.
Proof. destruct clearErrors; reflexivity. Qed.

(** [generateSession] reaches the network exactly when the three checks
    pass and the attributes parse; the request carries [requestBody], and
    what follows the answer is [onSettled] between [setLoading(true)] and
    [setLoading(false)]. *)
Lemma generateSession_unfold clearErrors st :
  generateSession clearErrors st =
    if App.required_fields_present st then
      match App.parseUserAttributes st with
      | inr message =>
          Done (App.setError (Some ("Invalid user attributes JSON: " +:+ message))
                  (App.cleared clearErrors st))
      | inl attrs =>
          Fetch (sessionRequest st attrs)
            (fun sessionResponse =>
               Done (App.setLoading false
                       (onSettled (App.setLoading true (App.cleared clearErrors st))
                          sessionResponse)))
      end
    else
      Done (App.setError
              (Some (if String.eqb (App.embedType st) "dashboard"
                        && negb (Str.truthy (Str.trim (App.dashboardId st)))
                     then "Dashboard Public ID is required for dashboard embedding"
                     else if String.eqb (App.userIdType st) "external"
                             && negb (Str.truthy (Str.trim (App.externalId st)))
                     then "External ID is required"
                     else "Internal ID (email) is required"))
              (App.cleared clearErrors st)).
Proof.
  unfold App.generateSession, App.required_fields_present.
  replace (App.embedType (App.cleared clearErrors st)) with (App.embedType st)
    by (destruct clearErrors; reflexivity).
  replace (App.dashboardId (App.cleared clearErrors st)) with (App.dashboardId st)
    by (destruct clearErrors; reflexivity).
  replace (App.userIdType (App.cleared clearErrors st)) with (App.userIdType st)
    by (destruct clearErrors; reflexivity).
  replace (App.externalId (App.cleared clearErrors st)) with (App.externalId st)
    by (destruct clearErrors; reflexivity).
  replace (App.internalId (App.cleared clearErrors st)) with (App.internalId st)
    by (destruct clearErrors; reflexivity).
  rewrite parseUserAttributes_cleared.
  destruct (String.eqb (App.embedType st) "dashboard" && _); [reflexivity|].
  destruct (String.eqb (App.userIdType st) "external" && _); [reflexivity|].
  destruct (String.eqb (App.userIdType st) "internal" && _); [reflexivity|].
  simpl. destruct (App.parseUserAttributes st) as [attrs|message]; [|reflexivity].
  f_equal. unfold App.sessionRequest. f_equal. f_equal.
  destruct clearErrors; reflexivity.
Qed.

Lemma truthy_trim_false s : Str.trim s = EmptyString -> Str.truthy (Str.trim s) = false.
Proof. intros ->. reflexivity. Qed.

Lemma truthy_trim_true s : Str.trim s <> EmptyString -> Str.truthy (Str.trim s) = true.
Proof. destruct (Str.trim s); [congruence|reflexivity]. Qed.

Lemma eqb_lit s t : s = t -> String.eqb s t = true.
Proof. intros ->. apply String.eqb_refl. Qed.

Lemma parseUserAttributes_fails st :
  App.userIdType st = "external" ->
  Str.trim (App.userAttributes st) <> EmptyString ->
  (forall items, JSON_parse (App.userAttributes st) <> Parsed (JArr items)) ->
  exists detail, App.parseUserAttributes st = inr detail.
Proof.
  intros Hu Hne Hparse. unfold App.parseUserAttributes.
  rewrite (eqb_lit _ _ Hu), (truthy_trim_true _ Hne). simpl.
  destruct (JSON_parse (App.userAttributes st)) as [v|message] eqn:E.
  - destruct v; simpl; try (eexists; reflexivity).
    exfalso. exact (Hparse _ eq_refl).
  - eexists; reflexivity.
Qed.

(** A failure in the specification's words is one for the source too,
    except for an attributes text that is blank without being empty. *)
Lemma specified_failure_fails (st : App.State) :
  App.validation_fails_as_specified st ->
  Str.trim (App.userAttributes st) <> EmptyString ->
  App.validation_fails st.
Proof.
  intros [[Ht Hd]|[[Hu He]|[[Hu Hi]|(Hu & _ & Hparse)]]] Hne.
  - left. rewrite Hd. split; [exact Ht|reflexivity].
  - right; left. rewrite He. split; [exact Hu|reflexivity].
  - right; right; left. rewrite Hi. split; [exact Hu|reflexivity].
  - right; right; right. split; [exact Hu|]. split; assumption.
Qed.


(** Conversely, a configuration that does not fail validation is sent. *)
Lemma generateSession_sends clearErrors st :
  ~ App.validation_fails st ->
  exists req k, generateSession clearErrors st = Fetch req k.
Proof.
  intros Hok. rewrite generateSession_unfold.
  assert (Hreq : App.required_fields_present st = true).
  { unfold App.required_fields_present.
    repeat (apply andb_true_intro; split); apply negb_true_iff, andb_false_iff.
    - destruct (String.eqb_spec (App.embedType st) "dashboard") as [E|E]; [|now left].
      right. apply negb_false_iff.
      destruct (Str.trim (App.dashboardId st)) eqn:Ht; [|reflexivity].
      exfalso. apply Hok. left. now split.
    - destruct (String.eqb_spec (App.userIdType st) "external") as [E|E]; [|now left].
      right. apply negb_false_iff.
      destruct (Str.trim (App.externalId st)) eqn:Ht; [|reflexivity].
      exfalso. apply Hok. right; left. now split.
    - destruct (String.eqb_spec (App.userIdType st) "internal") as [E|E]; [|now left].
      right. apply negb_false_iff.
      destruct (Str.trim (App.internalId st)) eqn:Ht; [|reflexivity].
      exfalso. apply Hok. right; right; left. now split. }
  rewrite Hreq.
  destruct (App.parseUserAttributes st) as [attrs|message] eqn:Hp;
    [eexists; eexists; reflexivity|].
  exfalso. apply Hok. right; right; right.
  unfold App.parseUserAttributes in Hp.
  destruct (String.eqb_spec (App.userIdType st) "external") as [E|E]; [|discriminate].
  destruct (Str.trim (App.userAttributes st)) eqn:Ht; [discriminate|]. simpl in Hp.
  split; [exact E|]. split; [discriminate|].
  intros items Hparsed. rewrite Hparsed in Hp. discriminate.
Qed.

(** A run of [generateSession] that issued a request: the request is the
    session request, and the final state is [onSettled] on the network's
    answer, between [setLoading(true)] and [setLoading(false)]. *)
Lemma run_generateSession clearErrors st net req :
  snd (run net (generateSession clearErrors st)) = [req] ->
  exists attrs,
    App.parseUserAttributes st = inl attrs
    /\ req = sessionRequest st attrs
    /\ fst (run net (generateSession clearErrors st))
       = App.setLoading false
           (onSettled (App.setLoading true (App.cleared clearErrors st)) (net req)).
Proof.
  rewrite generateSession_unfold.
  destruct (App.required_fields_present st); [|discriminate].
  destruct (App.parseUserAttributes st) as [attrs|message]; [|discriminate].
  simpl. intros E. injection E as <-. exists attrs. repeat split.
Qed.

(** *** The payload *)

Lemma requestBody_external st attrs :
  App.userIdType st = "external" ->
  get_prop (App.requestBody st attrs) "externalId" = Got (Some (JStr (App.externalId st)))
  /\ get_prop (App.requestBody st attrs) "internalId" = Got None.
Proof.
  intros Hu. unfold App.requestBody. rewrite (eqb_lit _ _ Hu).
  destruct attrs as [a|]; [destruct (truthy a)|];
    destruct (String.eqb (App.embedType st) "app"); split; reflexivity.
Qed.

Lemma requestBody_not_external st attrs :
  App.userIdType st <> "external" ->
  get_prop (App.requestBody st attrs) "internalId" = Got (Some (JStr (App.internalId st)))
  /\ get_prop (App.requestBody st attrs) "externalId" = Got None
  /\ get_prop (App.requestBody st attrs) "userAttributes" = Got None.
Proof.
  intros Hu. unfold App.requestBody.
  destruct (String.eqb_spec (App.userIdType st) "external") as [E|_]; [contradiction|].
  destruct (String.eqb (App.embedType st) "app"); repeat split.
Qed.

(** C3: a configuration that passes local validation is sent with a payload
    that has exactly one of [externalId] and [internalId]: for an external
    user [externalId] (the field's value) and no [internalId]; for an
    internal user [internalId] and neither [externalId] nor
    [userAttributes], whatever the attributes text holds. *)
Theorem C3_one_identity_in_payload
    (clearErrors : bool) (st : App.State) (net : Request -> FetchOutcome) (req : Request) :
  snd (run net (generateSession clearErrors st)) = [req] ->
  exists attrs,
    let payload := App.requestBody st attrs in
    body req = JSON_stringify payload
    /\ has_prop payload "externalId" = negb (has_prop payload "internalId")
    /\ (App.userIdType st = "external" ->
        get_prop payload "externalId" = Got (Some (JStr (App.externalId st)))
        /\ get_prop payload "internalId" = Got None)
    /\ (App.userIdType st = "internal" ->
        get_prop payload "internalId" = Got (Some (JStr (App.internalId st)))
        /\ get_prop payload "externalId" = Got None
        /\ get_prop payload "userAttributes" = Got None).
Proof.
  intros Hsend. apply run_generateSession in Hsend as (attrs & _ & -> & _).
  exists attrs. cbv zeta. split; [reflexivity|]. split; [|split].
  - unfold has_prop.
    destruct (String.eqb_spec (App.userIdType st) "external") as [E|E].
    + destruct (requestBody_external st attrs E) as [-> ->]. reflexivity.
    + destruct (requestBody_not_external st attrs E) as (-> & -> & _). reflexivity.
  - apply requestBody_external.
  - intros Hu. apply requestBody_not_external. rewrite Hu. discriminate.
Qed.

(** C4: the payload that is sent has [creatorMode: true] when the embed type
    is app and has no [creatorMode] at all for any other embed type (chat and
    dashboard among them). *)
Theorem C4_creator_mode_only_for_app
    (clearErrors : bool) (st : App.State) (net : Request -> FetchOutcome) (req : Request) :
  snd (run net (generateSession clearErrors st)) = [req] ->
  exists attrs,
    let payload := App.requestBody st attrs in
    body req = JSON_stringify payload
    /\ (App.embedType st = "app" ->
        get_prop payload "creatorMode" = Got (Some (JBool true)))
    /\ (App.embedType st <> "app" -> get_prop payload "creatorMode" = Got None)
    /\ (App.embedType st = "chat" \/ App.embedType st = "dashboard" ->
        has_prop payload "creatorMode" = false).
Proof.
  intros Hsend. apply run_generateSession in Hsend as (attrs & _ & -> & _).
  exists attrs. cbv zeta. split; [reflexivity|].
  assert (Hne : App.embedType st <> "app" ->
                get_prop (App.requestBody st attrs) "creatorMode" = Got None).
  { intros Ht. unfold App.requestBody.
    destruct (String.eqb_spec (App.embedType st) "app") as [E|_]; [contradiction|].
    destruct (String.eqb (App.userIdType st) "external"); [|reflexivity].
    destruct attrs as [a|]; [destruct (truthy a)|]; reflexivity. }
  split; [|split].
  - intros Ht. unfold App.requestBody. rewrite (eqb_lit _ _ Ht).
    destruct (String.eqb (App.userIdType st) "external"); [|reflexivity].
    destruct attrs as [a|]; [destruct (truthy a)|]; reflexivity.
  - exact Hne.
  - intros Ht. unfold has_prop. rewrite Hne; [reflexivity|].
    destruct Ht as [-> | ->]; discriminate.
Qed.

(** *** The embed URL *)

Lemma starts_with_app p s : Str.starts_with p (p +:+ s) = true.
Proof.
  induction p as [|a p IH]; [reflexivity|].
  simpl. rewrite Ascii.eqb_refl. exact IH.
Qed.

Lemma includes_prefix p s : Str.includes p (p +:+ s) = true.
Proof.
  destruct (p +:+ s) eqn:E; simpl; rewrite <- E, starts_with_app; reflexivity.
Qed.

(** C1: when the relay answers the session request 2xx with a body whose
    [sessionId] is truthy, the URL that is displayed (and mounted when
    embedding is on) is the base URL followed by [/embed/d/], the deployment
    id, then [/chat], or [/dashboard/] and the dashboard id, or [/app], and
    [?session=] with the session identifier as a template literal prints
    it (a string prints as itself). *)
Theorem C1_embed_url_shape
    (clearErrors : bool) (st : App.State) (net : Request -> FetchOutcome)
    (req : Request) (r : Response) (data : string)
    (sessionData newSessionId : value) (sid : string) :
  snd (run net (generateSession clearErrors st)) = [req] ->
  net req = Responded r ->
  ok r = true ->
  text r = BodyText data ->
  JSON_parse data = Parsed sessionData ->
  get_prop sessionData "sessionId" = Got (Some newSessionId) ->
  truthy newSessionId = true ->
  toString newSessionId = Some sid ->
  let st' := fst (run net (generateSession clearErrors st)) in
  exists url,
    App.sessionId st' = Some newSessionId
    /\ App.displayEmbedUrl st' = Some url
    /\ App.embedUrl st' = (if App.embedAfterGeneration st then Some url else None)
    /\ (App.embedType st = "chat" ->
        url = CUBE_API_URL +:+ "/embed/d/" +:+ App.deploymentId st
              +:+ "/chat?session=" +:+ sid)
    /\ (App.embedType st = "dashboard" ->
        url = CUBE_API_URL +:+ "/embed/d/" +:+ App.deploymentId st
              +:+ "/dashboard/" +:+ App.dashboardId st +:+ "?session=" +:+ sid)
    /\ (App.embedType st = "app" ->
        url = CUBE_API_URL +:+ "/embed/d/" +:+ App.deploymentId st
              +:+ "/app?session=" +:+ sid)
    /\ (forall s, newSessionId = JStr s -> sid = s).
Proof.
  intros Hsent Hnet Hok Htext Hparse Hget Htruthy Hstr.
  apply run_generateSession in Hsent as (attrs & _ & _ & Hrun).
  cbv zeta. rewrite Hrun, Hnet. clear Hrun.
  unfold App.onSettled.
  rewrite Hok, Htext, Hparse, Hget, Htruthy, Hstr. cbn [negb].
  exists (App.buildEmbedUrl CUBE_API_URL st sid).
  assert (Hurl : App.buildEmbedUrl CUBE_API_URL
                   (App.setSessionId (Some newSessionId)
                      (App.setLoading true (App.cleared clearErrors st))) sid
                 = App.buildEmbedUrl CUBE_API_URL st sid)
    by (destruct clearErrors; reflexivity).
  rewrite Hurl.
  replace (App.embedAfterGeneration _) with (App.embedAfterGeneration st)
    by (destruct clearErrors; reflexivity).
  split; [|split; [|split; [|split; [|split; [|split]]]]].
  - destruct (App.embedAfterGeneration st); destruct clearErrors; reflexivity.
  - destruct (App.embedAfterGeneration st); destruct clearErrors; reflexivity.
  - destruct (App.embedAfterGeneration st); destruct clearErrors; reflexivity.
  - intros Ht. unfold App.buildEmbedUrl. rewrite Ht. reflexivity.
  - intros Ht. unfold App.buildEmbedUrl. rewrite Ht. reflexivity.
  - intros Ht. unfold App.buildEmbedUrl. rewrite Ht. reflexivity.
  - intros s ->. simpl in Hstr. congruence.
Qed.

(** *** A 2xx answer without a session identifier *)

(** A run of [generateSession] that was answered 2xx with a body, not
    [null], whose [sessionId] is absent or falsy. *)
Lemma generateSession_missing_session_id
    (clearErrors : bool) (st : App.State) (net : Request -> FetchOutcome)
    (req : Request) (r : Response) (data : string)
    (sessionData : value) (field : option value) :
  snd (run net (generateSession clearErrors st)) = [req] ->
  net req = Responded r ->
  ok r = true ->
  text r = BodyText data ->
  JSON_parse data = Parsed sessionData ->
  get_prop sessionData "sessionId" = Got field ->
  truthy_opt field = false ->
  let st' := fst (run net (generateSession clearErrors st)) in
  App.error st'
  = Some ("Session ID not found in response: " +:+ JSON_stringify sessionData)
  /\ App.sessionId st' = App.sessionId st
  /\ App.embedUrl st' = (if clearErrors then None else App.embedUrl st)
  /\ App.displayEmbedUrl st' = (if clearErrors then None else App.displayEmbedUrl st).
Proof.
  intros Hsent Hnet Hok Htext Hparse Hget Hfalsy.
  apply run_generateSession in Hsent as (attrs & _ & _ & Hrun).
  cbv zeta. rewrite Hrun, Hnet. clear Hrun.
  unfold App.onSettled. rewrite Hok, Htext, Hparse, Hget. cbn [negb].
  destruct field as [v|]; simpl in Hfalsy; [rewrite Hfalsy|]; cbn [negb];
    (split; [reflexivity|]); destruct clearErrors; repeat split.
Qed.

(** A refresh that issued a request went through [generateSession(false)]. *)
Lemma handleRefresh_sent (st : App.State) (net : Request -> FetchOutcome) req :
  snd (run net (handleRefresh st)) = [req] ->
  handleRefresh st = generateSession false st.
Proof.
  unfold App.handleRefresh.
  destruct (negb (Str.truthy (App.deploymentId st))); [discriminate|].
  destruct (_ && _); [discriminate|].
  destruct (_ && _); [discriminate|].
  reflexivity.
Qed.

(** C10, as amended: for a submit or a refresh that the relay answers 2xx
    with a body that parses to a value other than [null] whose [sessionId] is
    absent or falsy, the error shown starts with [Session ID not found in
    response], the stored session identifier stays as it was, and the two
    URLs are not set: they are as the start of the call left them (cleared by
    a submit, untouched by a refresh). *)
Theorem C10_missing_session_id
    (action : App.Action) (st : App.State) (net : Request -> FetchOutcome)
    (req : Request) (r : Response) (data : string)
    (sessionData : value) (field : option value) :
  snd (run net (App.handle CUBE_API_URL LOCAL_SERVER_URL action st)) = [req] ->
  net req = Responded r ->
  ok r = true ->
  text r = BodyText data ->
  JSON_parse data = Parsed sessionData ->
  get_prop sessionData "sessionId" = Got field ->
  truthy_opt field = false ->
  let st' := fst (run net (App.handle CUBE_API_URL LOCAL_SERVER_URL action st)) in
  exists message,
    App.error st' = Some message
    /\ message = "Session ID not found in response: " +:+ JSON_stringify sessionData
    /\ Str.includes "Session ID not found in response" message = true
    /\ App.sessionId st' = App.sessionId st
    /\ App.embedUrl st'
       = match action with App.Submit => None | App.Refresh => App.embedUrl st end
    /\ App.displayEmbedUrl st'
       = match action with App.Submit => None | App.Refresh => App.displayEmbedUrl st end.
Proof.
  intros Hsent Hnet Hok Htext Hparse Hget Hfalsy.
  assert (Hincl : Str.includes "Session ID not found in response"
                    ("Session ID not found in response: " +:+ JSON_stringify sessionData)
                  = true).
  { change ("Session ID not found in response: " +:+ JSON_stringify sessionData)
      with ("Session ID not found in response"
              +:+ (": " +:+ JSON_stringify sessionData)).
    apply includes_prefix. }
  destruct action; cbn [App.handle] in *.
  - unfold App.handleSubmit in *.
    destruct (generateSession_missing_session_id true st net req r data sessionData field
                Hsent Hnet Hok Htext Hparse Hget Hfalsy) as (He & Hs & Hu & Hd).
    eexists. split; [exact He|]. repeat split; assumption.
  - pose proof (handleRefresh_sent st net req Hsent) as Hgen.
    rewrite Hgen in *. clear Hgen.
    destruct (generateSession_missing_session_id false st net req r data sessionData field
                Hsent Hnet Hok Htext Hparse Hget Hfalsy) as (He & Hs & Hu & Hd).
    eexists. split; [exact He|]. repeat split; assumption.
Qed.

(** A 2xx answer whose body is the JSON text [null]: reading [sessionId]
    throws, and the error shown is the engine's message for that. *)
Lemma onSettled_null_body st r data :
  ok r = true ->
  text r = BodyText data ->
  JSON_parse data = Parsed JNull ->
  App.error (onSettled st (Responded r)) = Some (msg_read_of_null "sessionId").
Proof.
  intros Hok Htext Hparse. unfold App.onSettled.
  rewrite Hok, Htext, Hparse. reflexivity.
Qed.

(** *** Refresh *)

(** Once its own checks pass, the refresh path is [generateSession(false)]. *)
Lemma handleRefresh_passes (st : App.State) :
  App.deploymentId st <> EmptyString ->
  (App.userIdType st = "external" -> App.externalId st <> EmptyString) ->
  (App.userIdType st = "internal" -> App.internalId st <> EmptyString) ->
  handleRefresh st = generateSession false st.
Proof.
  intros Hd He Hi. unfold App.handleRefresh.
  destruct (App.deploymentId st) eqn:Ed; [congruence|]. cbn [Str.truthy negb].
  destruct (String.eqb_spec (App.userIdType st) "external") as [Eu|_].
  - destruct (App.externalId st); [exfalso; now apply He|]. simpl.
    rewrite Eu. reflexivity.
  - simpl. destruct (String.eqb_spec (App.userIdType st) "internal") as [Eu|_];
      [|reflexivity].
    destruct (App.internalId st); [exfalso; now apply Hi|]. reflexivity.
Qed.

(** C8, as amended: the refresh path first checks that the deployment id
    and the identity field that [userIdType] selects are not empty, and
    stops with its own message and without a request when one is; otherwise
    it is [generateSession(false)] on the current field values: the whole
    generate flow, with all of its validation and the same URL derivation. *)
Theorem C8_refresh_is_generate (st : App.State) :
  (App.deploymentId st = EmptyString ->
   handleRefresh st
   = Done (App.setError (Some "Please fill in Deployment ID before refreshing") st))
  /\ (App.deploymentId st <> EmptyString ->
      App.userIdType st = "external" -> App.externalId st = EmptyString ->
      handleRefresh st
      = Done (App.setError (Some "Please fill in External ID before refreshing") st))
  /\ (App.deploymentId st <> EmptyString ->
      App.userIdType st = "internal" -> App.internalId st = EmptyString ->
      handleRefresh st
      = Done (App.setError (Some "Please fill in Internal ID before refreshing") st))
  /\ (App.deploymentId st <> EmptyString ->
      (App.userIdType st = "external" -> App.externalId st <> EmptyString) ->
      (App.userIdType st = "internal" -> App.internalId st <> EmptyString) ->
      handleRefresh st = generateSession false st).
Proof.
  split; [|split; [|split]].
  - intros Hd. unfold App.handleRefresh. rewrite Hd. reflexivity.
  - intros Hd Hu He. unfold App.handleRefresh.
    destruct (App.deploymentId st); [congruence|].
    rewrite Hu, He. reflexivity.
  - intros Hd Hu Hi. unfold App.handleRefresh.
    destruct (App.deploymentId st); [congruence|].
    rewrite Hu, Hi. reflexivity.
  - exact (handleRefresh_passes st).
Qed.

(** When one of the two fields is empty the refresh stops there, with a
    message and without a request. *)
Lemma handleRefresh_stops (st : App.State) :
  App.deploymentId st = EmptyString
  \/ (App.userIdType st = "external" /\ App.externalId st = EmptyString)
  \/ (App.userIdType st = "internal" /\ App.internalId st = EmptyString) ->
  exists message, handleRefresh st = Done (App.setError (Some message) st).
Proof.
  unfold App.handleRefresh.
  destruct (App.deploymentId st); [intros _; eexists; reflexivity|].
  cbn [Str.truthy negb].
  intros [H|[[Hu He]|[Hu Hi]]]; [discriminate| |].
  - rewrite Hu, He. eexists; reflexivity.
  - rewrite Hu, Hi. eexists; reflexivity.
Qed.

End Form.

(** ** Persistence *)

Section Persistence.
Context `{RT : JSRuntime}.

Lemma string_or_own (saved : value) k dflt s :
  get_prop saved k = Got (Some (JStr s)) ->
  App.string_or saved k dflt = Some (App.or_default s dflt).
Proof.
  intros H. unfold App.string_or, App.or_default. rewrite H. simpl.
  destruct s; reflexivity.
Qed.

Lemma bool_nullish_own (saved : value) k dflt b :
  get_prop saved k = Got (Some (JBool b)) ->
  App.bool_nullish saved k dflt = Some b.
Proof. intros H. unfold App.bool_nullish. rewrite H. reflexivity. Qed.

(** What [loadSavedConfig] returns for a stored object whose [embedType]
    is a string: the object, with [home] replaced by [app]. *)
Lemma loadSavedConfig_saved st (localStorage : gmap string string) :
  JSON_stringify (App.savedConfig st) <> EmptyString ->
  JSON_parse (JSON_stringify (App.savedConfig st)) = Parsed (App.savedConfig st) ->
  App.loadSavedConfig (App.saveConfig st localStorage)
  = set_prop (App.savedConfig st) "embedType" (JStr (App.migrate (App.embedType st))).
Proof.
  intros Hne Hround. unfold App.loadSavedConfig, App.saveConfig.
  rewrite lookup_insert_eq.
  assert (Ht : Str.truthy (JSON_stringify (App.savedConfig st)) = true)
    by (destruct (JSON_stringify (App.savedConfig st)); [congruence|reflexivity]).
  rewrite Ht, Hround.
  change (get_prop (App.savedConfig st) "embedType")
    with (Got (Some (@JStr number (App.embedType st)))).
  unfold App.migrate.
  destruct (String.eqb (App.embedType st) "home"); reflexivity.
Qed.

(** Mounting over what the save effect wrote, for any engine whose
    [JSON.parse] reads back what its [JSON.stringify] wrote for the saved
    object. *)
Lemma mount_saveConfig (st : App.State) (localStorage : gmap string string) :
  JSON_stringify (App.savedConfig st) <> EmptyString ->
  JSON_parse (JSON_stringify (App.savedConfig st)) = Parsed (App.savedConfig st) ->
  App.mount (App.saveConfig st localStorage) = Some (App.reloaded st).
Proof.
  intros Hne Hround. unfold App.mount.
  rewrite (loadSavedConfig_saved st localStorage Hne Hround).
  unfold App.initialState.
  rewrite (string_or_own _ "deploymentId" _ (App.deploymentId st)) by reflexivity.
  rewrite (string_or_own _ "userIdType" _ (App.userIdType st)) by reflexivity.
  rewrite (string_or_own _ "externalId" _ (App.externalId st)) by reflexivity.
  rewrite (string_or_own _ "internalId" _ (App.internalId st)) by reflexivity.
  rewrite (string_or_own _ "embedType" _ (App.migrate (App.embedType st))) by reflexivity.
  rewrite (string_or_own _ "dashboardId" _ (App.dashboardId st)) by reflexivity.
  rewrite (string_or_own _ "userAttributes" _ (App.userAttributes st)) by reflexivity.
  rewrite (bool_nullish_own _ "embedAfterGeneration" _ (App.embedAfterGeneration st))
    by reflexivity.
  rewrite (bool_nullish_own _ "menuCollapsed" _ (App.menuCollapsed st)) by reflexivity.
  cbn. unfold App.reloaded. do 2 f_equal.
  - unfold App.or_default. destruct (App.deploymentId st); reflexivity.
  - unfold App.or_default. destruct (App.internalId st); reflexivity.
  - unfold App.or_default. destruct (App.dashboardId st); reflexivity.
  - unfold App.or_default. destruct (App.userAttributes st); reflexivity.
Qed.

(** For a state with the radio groups at values the form offers and an
    external id that is not empty, the persisted fields come back as they
    were saved. *)
Lemma reloaded_well_typed (st : App.State) :
  App.well_typed st ->
  App.externalId st <> EmptyString ->
  App.savedConfig (App.reloaded st) = App.savedConfig st.
Proof.
  intros [Hu Ht] He. unfold App.savedConfig, App.reloaded. cbn.
  assert (Eu : App.or_default (App.userIdType st) "external" = App.userIdType st)
    by (destruct Hu as [-> | ->]; reflexivity).
  assert (Et : App.or_default (App.migrate (App.embedType st)) "chat" = App.embedType st)
    by (destruct Ht as [-> | [-> | ->]]; reflexivity).
  assert (Ee : App.or_default (App.externalId st) "test-user-123" = App.externalId st)
    by (unfold App.or_default; destruct (App.externalId st); [congruence|reflexivity]).
  rewrite Eu, Et, Ee. reflexivity.
Qed.

(** C7, as amended: saving a configuration and mounting the component again
    restores every persisted field as it was, except that the embed type
    [home] comes back as [app], and that an empty text comes back as the
    field's default where the default is not empty: an empty external id as
    [test-user-123] (an empty user-id type as [external] and an empty embed
    type as [chat], which the form's radio groups never produce). *)
Theorem C7_save_then_mount (st : App.State) (localStorage : gmap string string) :
  JSON_stringify (App.savedConfig st) <> EmptyString ->
  JSON_parse (JSON_stringify (App.savedConfig st)) = Parsed (App.savedConfig st) ->
  exists st',
    App.mount (App.saveConfig st localStorage) = Some st'
    /\ App.deploymentId st' = App.deploymentId st
    /\ App.userIdType st' = App.or_default (App.userIdType st) "external"
    /\ App.externalId st' = App.or_default (App.externalId st) "test-user-123"
    /\ App.internalId st' = App.internalId st
    /\ App.embedType st' = App.or_default (App.migrate (App.embedType st)) "chat"
    /\ App.dashboardId st' = App.dashboardId st
    /\ App.userAttributes st' = App.userAttributes st
    /\ App.embedAfterGeneration st' = App.embedAfterGeneration st
    /\ App.menuCollapsed st' = App.menuCollapsed st.
Proof.
  intros Hne Hround. exists (App.reloaded st).
  split; [exact (mount_saveConfig st localStorage Hne Hround)|].
  repeat split.
Qed.

End Persistence.

(** ** The reference runtime reads back a saved configuration *)

Section ReferenceRuntime.
Import Ref.

Lemma app_cons (x : ascii) (a b : string) : String x a +:+ b = String x (a +:+ b).
Proof. reflexivity. Qed.

Lemma app_assoc (a b c : string) : (a +:+ b) +:+ c = a +:+ (b +:+ c).
Proof. induction a as [|x a IH]; [reflexivity|]. rewrite !app_cons, IH. reflexivity. Qed.

Lemma app_nil_r (a : string) : a +:+ EmptyString = a.
Proof. induction a as [|x a IH]; [reflexivity|]. rewrite app_cons, IH. reflexivity. Qed.

Lemma length_app (a b : string) :
  String.length (a +:+ b) = String.length a + String.length b.
Proof. induction a as [|x a IH]; [reflexivity|]. rewrite app_cons. cbn. rewrite IH. reflexivity. Qed.

Lemma parse_chars_quote_char a tl :
  parse_chars (quote_char a +:+ tl)
  = match parse_chars tl with
    | inl (str, r) => inl (String a str, r)
    | inr at_ => inr at_
    end.
Proof. destruct a as [[] [] [] [] [] [] [] []]; reflexivity. Qed.

Lemma parse_chars_quote_body s rest :
  parse_chars (quote_body s +:+ String dquote rest) = inl (s, rest).
Proof.
  induction s as [|a s IH]; [reflexivity|].
  cbn [quote_body]. rewrite app_assoc, parse_chars_quote_char, IH. reflexivity.
Qed.

Lemma quote_app s rest :
  quote s +:+ rest = String dquote (quote_body s +:+ String dquote rest).
Proof. unfold quote. rewrite app_cons, app_assoc. reflexivity. Qed.

Lemma parse_value_string fuel tl :
  parse_value (S fuel) (String dquote tl)
  = match parse_chars tl with
    | inl (str, r) => inl (JStr str, r)
    | inr at_ => inr at_
    end.
Proof. reflexivity. Qed.

Lemma parse_value_flat v fuel rest :
  flat v -> parse_value (S fuel) (stringify v +:+ rest) = inl (v, rest).
Proof.
  destruct v as [|[]| |s| |]; try contradiction; intros _.
  - reflexivity.
  - reflexivity.
  - cbn [stringify]. rewrite quote_app, parse_value_string, parse_chars_quote_body.
    reflexivity.
Qed.

Lemma join_cons sep p q rest :
  join sep (p :: q :: rest) = p +:+ sep +:+ join sep (q :: rest).
Proof.
  unfold join. cbn [fold_left]. revert p q.
  induction rest as [|x rest IH]; intros p q; [reflexivity|].
  cbn [fold_left]. rewrite (IH (p +:+ sep +:+ q) x), (IH q x).
  rewrite !app_assoc. reflexivity.
Qed.

Lemma parse_members_step fuel tl :
  parse_members (S fuel) (String dquote tl)
  = match parse_chars tl with
    | inr at_ => inr at_
    | inl (k, r) =>
        match skip_ws r with
        | String ":" r1 =>
            match parse_value fuel r1 with
            | inr at_ => inr at_
            | inl (v, r2) =>
                match skip_ws r2 with
                | String "," r3 =>
                    match parse_members fuel r3 with
                    | inl (kvs, r4) => inl ((k, v) :: kvs, r4)
                    | inr at_ => inr at_
                    end
                | String "}" r3 => inl ([(k, v)], r3)
                | r3 => inr r3
                end
            end
        | r1 => inr r1
        end
    end.
Proof. reflexivity. Qed.

Lemma member_app kv rest :
  member kv +:+ rest
  = String dquote (quote_body (fst kv)
                   +:+ String dquote (String ":" (stringify (snd kv) +:+ rest))).
Proof. unfold member. rewrite !app_assoc, quote_app. reflexivity. Qed.

Lemma parse_members_flat props :
  Forall (fun kv => flat (snd kv)) props ->
  props <> [] ->
  forall fuel rest,
    length props < fuel ->
    parse_members fuel (join "," (map member props) +:+ "}" +:+ rest)
    = inl (props, rest).
Proof.
  induction props as [|[k v] props IH]; [congruence|].
  intros Hflat _ fuel rest Hfuel.
  apply Forall_cons in Hflat as [Hv Hflat]. cbn [snd] in Hv.
  destruct fuel as [|[|fuel]]; [cbn in Hfuel; lia..|].
  destruct props as [|kv' props].
  - cbn [map join fold_left].
    rewrite member_app, parse_members_step, parse_chars_quote_body.
    cbn [fst snd]. change (skip_ws (String ":" ?r)) with (String ":" r).
    cbv beta iota.
    rewrite (parse_value_flat v fuel _ Hv). reflexivity.
  - cbn [map]. rewrite join_cons, app_assoc.
    rewrite member_app, parse_members_step, parse_chars_quote_body.
    cbn [fst snd]. change (skip_ws (String ":" ?r)) with (String ":" r).
    cbv beta iota.
    rewrite (parse_value_flat v fuel _ Hv).
    rewrite app_assoc.
    change (skip_ws ("," +:+ ?r)) with (String "," r). cbv beta iota.
    change (member kv' :: map member props) with (map member (kv' :: props)).
    rewrite IH; [reflexivity|exact Hflat|discriminate|cbn in *; lia].
Qed.

Lemma parse_value_object fuel tl :
  parse_value (S fuel) (String "{" (String dquote tl))
  = match parse_members fuel (String dquote tl) with
    | inl (members, r) =>
        inl (JObj (fold_left (fun acc kv => assoc_set (fst kv) (snd kv) acc) members []), r)
    | inr at_ => inr at_
    end.
Proof. reflexivity. Qed.

Lemma stringify_object_app props rest :
  stringify (JObj props) +:+ rest
  = String "{" (join "," (map member props) +:+ "}" +:+ rest).
Proof. cbn [stringify]. rewrite !app_assoc. reflexivity. Qed.

Lemma parse_object_flat props fuel rest :
  Forall (fun kv => flat (snd kv)) props ->
  props <> [] ->
  length props + 1 < fuel ->
  parse_value fuel (stringify (JObj props) +:+ rest)
  = inl (JObj (fold_left (fun acc kv => assoc_set (fst kv) (snd kv) acc) props []), rest).
Proof.
  intros Hflat Hne Hfuel. destruct fuel as [|fuel]; [lia|].
  rewrite stringify_object_app.
  pose proof (parse_members_flat props Hflat Hne fuel rest ltac:(lia)) as Hm.
  destruct props as [|kv props]; [congruence|].
  destruct props as [|kv' props].
  - cbn [map join fold_left] in *. rewrite member_app in *.
    rewrite parse_value_object, Hm. reflexivity.
  - cbn [map] in *. rewrite join_cons, app_assoc, member_app in *.
    rewrite parse_value_object, Hm. reflexivity.
Qed.

Lemma ref_savedConfig_round_trip (st : App.State) :
  JSON_stringify (App.savedConfig st) <> EmptyString
  /\ JSON_parse (JSON_stringify (App.savedConfig st)) = Parsed (App.savedConfig st).
Proof.
  split; [discriminate|].
  change (parse (stringify (App.savedConfig st)) = Parsed (App.savedConfig st)).
  unfold parse, App.savedConfig. change (@number runtime) with num.
  match goal with
  | |- context [parse_value ?fuel (stringify (JObj ?props))] =>
      pose proof (parse_object_flat props fuel EmptyString) as Hparse
  end.
  rewrite app_nil_r in Hparse. rewrite Hparse.
  - reflexivity.
  - repeat constructor.
  - discriminate.
  - cbn [length].
    match goal with
    | |- _ < 2 * String.length ?txt + 2 => assert (8 <= String.length txt); [|lia]
    end.
    cbn [stringify map]. rewrite !join_cons, !length_app. cbn [String.length]. lia.
Qed.

(** On the reference runtime a saved configuration always mounts. *)
Lemma ref_mount_saveConfig (st : App.State) (localStorage : gmap string string) :
  App.mount (App.saveConfig st localStorage) = Some (App.reloaded st).
Proof.
  destruct (ref_savedConfig_round_trip st) as [Hne Hround].
  exact (mount_saveConfig st localStorage Hne Hround).
Qed.

End ReferenceRuntime.

(** ** The properties at sample inputs *)

Section Samples.
Import Ref.

Local Abbreviation generateSession := (App.generateSession Example.base Example.origin).
Local Abbreviation handleRefresh := (App.handleRefresh Example.base Example.origin).

(** C1 at a sample input: session [abc123] for deployment 32, chat. *)
Lemma C1_chat_abc123 :
  exists url,
    App.displayEmbedUrl
      (fst (run (Example.answers 200 Example.session_abc123)
              (generateSession true Example.chat)))
    = Some url
    /\ url = "https://cube.example/embed/d/32/chat?session=abc123".
Proof.
  destruct (C1_embed_url_shape Example.base Example.origin true Example.chat
              (Example.answers 200 Example.session_abc123)
              (App.sessionRequest Example.origin Example.chat None)
              (Example.response 200 Example.session_abc123)
              Example.session_abc123
              (JObj [("sessionId", JStr "abc123")]) (JStr "abc123") "abc123"
              eq_refl eq_refl eq_refl eq_refl eq_refl eq_refl eq_refl eq_refl)
    as (url & _ & Hdisplay & _ & Hchat & _).
  exists url. split; [exact Hdisplay | exact (Hchat eq_refl)].
Defined.

(** C2 at a sample input: an upstream 404 goes back to the caller as it came. *)
Lemma C2_upstream_404 :
  exists req reply,
    run (fun _ => Responded (Example.response 404 "Deployment not found"))
        (Relay.generate_session (Example.relay "secret") Example.payload)
    = (reply, [req])
    /\ url req = "https://cube.example/api/v1/embed/generate-session"
    /\ method req = "POST"
    /\ body req = Ref.stringify Example.payload
    /\ headers req = [("Content-Type", "application/json");
                      ("Authorization", "Api-Key secret")]
    /\ Relay.res_status reply = 404%N
    /\ Relay.res_body reply = "Deployment not found"
    /\ Relay.res_contentType reply = "application/json".
Proof.
  exact (C2_relay_is_transparent (Example.relay "secret") Example.payload
           (Example.response 404 "Deployment not found") "Deployment not found"
           eq_refl).
Defined.

(** C3 at a sample input: an internal user with a stale attributes text. *)
Lemma C3_internal_user :
  exists attrs,
    let payload := App.requestBody Example.app_internal attrs in
    body (App.sessionRequest Example.origin Example.app_internal None)
    = JSON_stringify payload
    /\ has_prop payload "externalId" = negb (has_prop payload "internalId")
    /\ (App.userIdType Example.app_internal = "external" ->
        get_prop payload "externalId"
        = Got (Some (JStr (App.externalId Example.app_internal)))
        /\ get_prop payload "internalId" = Got None)
    /\ (App.userIdType Example.app_internal = "internal" ->
        get_prop payload "internalId"
        = Got (Some (JStr (App.internalId Example.app_internal)))
        /\ get_prop payload "externalId" = Got None
        /\ get_prop payload "userAttributes" = Got None).
Proof.
  exact (C3_one_identity_in_payload Example.base Example.origin true
           Example.app_internal (Example.answers 200 Example.session_abc123)
           (App.sessionRequest Example.origin Example.app_internal None) eq_refl).
Defined.

(** C4 at a sample input: the app embed type carries [creatorMode]. *)
Lemma C4_app_creator_mode :
  exists attrs,
    body (App.sessionRequest Example.origin Example.app_internal None)
    = JSON_stringify (App.requestBody Example.app_internal attrs)
    /\ get_prop (App.requestBody Example.app_internal attrs) "creatorMode"
       = Got (Some (JBool true)).
Proof.
  destruct (C4_creator_mode_only_for_app Example.base Example.origin false
              Example.app_internal (Example.answers 200 Example.session_abc123)
              (App.sessionRequest Example.origin Example.app_internal None) eq_refl)
    as (attrs & Hbody & Happ & _).
  exists attrs. split; [exact Hbody | exact (Happ eq_refl)].
Defined.





(** C7 at a sample input: saving the chat form and mounting again. *)
Lemma C7_chat_round_trip :
  exists st',
    App.mount (App.saveConfig Example.chat ∅) = Some st'
    /\ App.deploymentId st' = "32"
    /\ App.userIdType st' = "external"
    /\ App.externalId st' = "test-user-123"
    /\ App.internalId st' = EmptyString
    /\ App.embedType st' = "chat"
    /\ App.dashboardId st' = EmptyString
    /\ App.userAttributes st' = EmptyString
    /\ App.embedAfterGeneration st' = true
    /\ App.menuCollapsed st' = false.
Proof.
  assert (Hne : JSON_stringify (App.savedConfig Example.chat) <> EmptyString)
    by (vm_compute; discriminate).
  assert (Hround : JSON_parse (JSON_stringify (App.savedConfig Example.chat))
                   = Parsed (App.savedConfig Example.chat))
    by (vm_compute; reflexivity).
  exact (C7_save_then_mount Example.chat ∅ Hne Hround).
Defined.

(** C7, counterexample: an internal-user configuration whose external id
    was cleared does not come back as it was saved: the external id is
    [test-user-123] after mounting again. *)
Lemma C7_empty_external_id_not_restored :
  App.externalId Example.empty_external_id = EmptyString
  /\ App.embedType Example.empty_external_id = "chat"
  /\ exists st',
       App.mount (App.saveConfig Example.empty_external_id ∅) = Some st'
       /\ App.externalId st' = "test-user-123"
       /\ App.externalId st' <> App.externalId Example.empty_external_id.
Proof.
  split; [reflexivity|]. split; [reflexivity|].
  exists (Example.form "32" "internal" "test-user-123" "ada@example.com" "chat"
            EmptyString EmptyString).
  split; [reflexivity|].
  split; [reflexivity|discriminate].
Qed.

(** C8 at a sample input: refreshing a displayed chat embed. *)
Lemma C8_refresh_chat :
  handleRefresh (Example.embedded Example.chat)
  = generateSession false (Example.embedded Example.chat).
Proof.
  apply (proj2 (proj2 (proj2 (C8_refresh_is_generate Example.base Example.origin
                                (Example.embedded Example.chat))))).
  - discriminate.
  - intros _. discriminate.
  - simpl. discriminate.
Defined.

(** C8, counterexample: with the deployment id and the external id filled
    in, a refresh under the dashboard embed type and an empty dashboard id
    is stopped by the dashboard check of the generate flow; no request is
    issued. *)
Lemma C8_refresh_validates_dashboard_id :
  let st := Example.embedded Example.dashboard_without_id in
  App.deploymentId st <> EmptyString
  /\ App.userIdType st = "external"
  /\ App.externalId st <> EmptyString
  /\ handleRefresh st
     = Done (App.setError
               (Some "Dashboard Public ID is required for dashboard embedding") st)
  /\ forall net, snd (run net (handleRefresh st)) = [].
Proof.
  cbv zeta. split; [discriminate|]. split; [reflexivity|]. split; [discriminate|].
  split; [reflexivity|]. intros net. reflexivity.
Qed.

(** C10 at a sample input: a submit answered 2xx with an empty object. *)
Lemma C10_empty_object :
  let st' := fst (run (Example.answers 200 Example.empty_object)
                    (App.handle Example.base Example.origin App.Submit Example.chat)) in
  exists message,
    App.error st' = Some message
    /\ message = "Session ID not found in response: " +:+ Example.empty_object
    /\ Str.includes "Session ID not found in response" message = true
    /\ App.sessionId st' = None
    /\ App.embedUrl st' = None
    /\ App.displayEmbedUrl st' = None.
Proof.
  exact (C10_missing_session_id Example.base Example.origin App.Submit Example.chat
           (Example.answers 200 Example.empty_object)
           (App.sessionRequest Example.origin Example.chat None)
           (Example.response 200 Example.empty_object) Example.empty_object
           (JObj []) None
           eq_refl eq_refl eq_refl eq_refl eq_refl eq_refl eq_refl).
Defined.

(** C10, counterexample: a submit answered 2xx with the JSON text [null].
    The body has no [sessionId], and the error shown is the engine's message
    for reading a property of [null], which does not mention a session id. *)
Lemma C10_null_body :
  let st' := fst (run (Example.answers 200 "null")
                    (App.handle Example.base Example.origin App.Submit Example.chat)) in
  ok (Example.response 200 "null") = true
  /\ JSON_parse "null" = Parsed JNull
  /\ has_prop (JNull : value) "sessionId" = false
  /\ App.error st' = Some "Cannot read properties of null (reading 'sessionId')"
  /\ Str.includes "Session ID not found in response"
       "Cannot read properties of null (reading 'sessionId')" = false.
Proof.
  cbv zeta. repeat split; vm_compute; reflexivity.
Qed.

(** *** Further sample runs *)

(** Session [abc123] for deployment 32 and dashboard [pub-1]. *)
Example dashboard_pub_1 :
  App.displayEmbedUrl
    (fst (run (Example.answers 200 Example.session_abc123)
            (generateSession true
               (Example.form "32" "external" "test-user-123" EmptyString
                  "dashboard" "pub-1" EmptyString))))
  = Some "https://cube.example/embed/d/32/dashboard/pub-1?session=abc123".
Proof. vm_compute. reflexivity. Qed.

(** A dashboard embed without a dashboard id is stopped before the network. *)
Example dashboard_without_id_is_local :
  snd (run (Example.answers 200 Example.session_abc123)
         (generateSession true Example.dashboard_without_id)) = []
  /\ App.error (fst (run (Example.answers 200 Example.session_abc123)
                       (generateSession true Example.dashboard_without_id)))
     = Some "Dashboard Public ID is required for dashboard embedding".
Proof. split; vm_compute; reflexivity. Qed.

(** An upstream error status is shown with its body. *)
Example upstream_error_is_shown :
  App.error (fst (run (Example.answers 401 "Unauthorized")
                    (generateSession true Example.chat)))
  = Some ("Failed to generate session: 401 " +:+ App.newline +:+ "Unauthorized").
Proof. vm_compute. reflexivity. Qed.

(** A legacy blob with the embed type [home] mounts as [app]. *)
Example legacy_home_mounts_as_app :
  App.embedType
    <$> App.mount
          {[ App.STORAGE_KEY :=
               Ref.stringify (JObj [("deploymentId", JStr "32");
                                    ("embedType", JStr "home")]) ]}
  = Some "app".
Proof. vm_compute. reflexivity. Qed.

End Samples.

(** * Further properties *)

(** ** The start-up log *)

Section LogFacts.

Lemma take_all n s : String.length s <= n -> Log.take n s = s.
Proof.
  revert n. induction s as [|a s IH]; intros [|n] H; simpl in *; try reflexivity; try lia.
  rewrite IH by lia. reflexivity.
Qed.

Lemma take_app n a b : String.length a = n -> Log.take n (a +:+ b) = a.
Proof.
  revert n. induction a as [|x a IH]; intros n H; simpl in H; subst n.
  - destruct b; reflexivity.
  - rewrite app_cons. simpl. rewrite IH by reflexivity. reflexivity.
Qed.

Lemma drop_app n a b : String.length a = n -> Log.drop n (a +:+ b) = b.
Proof.
  revert n. induction a as [|x a IH]; intros n H; simpl in H; subst n.
  - destruct b; reflexivity.
  - rewrite app_cons. simpl. apply IH. reflexivity.
Qed.

Lemma take_drop n s : Log.take n s +:+ Log.drop n s = s.
Proof.
  revert s. induction n as [|n IH]; intros [|a s]; try reflexivity.
  simpl. rewrite app_cons, IH. reflexivity.
Qed.

Lemma drop_drop n m s : Log.drop n (Log.drop m s) = Log.drop (m + n) s.
Proof.
  revert s. induction m as [|m IH]; intros s; [reflexivity|].
  destruct s as [|a s]; simpl; [destruct n; reflexivity|]. apply IH.
Qed.

Lemma length_drop n s : String.length (Log.drop n s) = String.length s - n.
Proof.
  revert s. induction n as [|n IH]; intros [|a s]; simpl; try lia. apply IH.
Qed.

Lemma length_take n s : (n <= String.length s)%nat -> String.length (Log.take n s) = n.
Proof.
  revert s. induction n as [|n IH]; intros [|a s] Hn; simpl in *; try lia;
    try reflexivity.
  rewrite IH by lia. reflexivity.
Qed.

Lemma substring_prefix (n : nat) s :
  Log.substring 0 (Some (Z.of_nat n)) s = Log.take n s.
Proof.
  unfold Log.substring, Log.clamp. cbn [Z.max].
  replace (Z.to_nat (Z.min 0 _)) with 0%nat by lia.
  rewrite Nat.min_0_l, Nat.max_0_l, Nat.sub_0_r. cbn [Log.drop].
  destruct (Nat.le_gt_cases n (String.length s)) as [H|H].
  - replace (Z.to_nat _) with n by lia. reflexivity.
  - replace (Z.to_nat _) with (String.length s) by lia.
    rewrite !take_all by lia. reflexivity.
Qed.

Lemma substring_suffix (i : Z) s :
  Log.substring i None s = Log.drop (Z.to_nat i) s.
Proof.
  unfold Log.substring, Log.clamp.
  set (len := String.length s).
  assert (Hc : (Z.to_nat (Z.min (Z.max i 0) (Z.of_nat len)) <= len)%nat) by lia.
  rewrite Nat.min_l, Nat.max_r by exact Hc.
  rewrite take_all by (rewrite length_drop; fold len; lia).
  destruct (Z_le_gt_dec i (Z.of_nat len)) as [H|H].
  - f_equal. lia.
  - replace (Z.to_nat (Z.min _ _)) with len by lia.
    assert (Hd : forall n t, (String.length t <= n)%nat -> Log.drop n t = EmptyString).
    { intros n t. revert n. induction t as [|a t IH]; intros [|n] Hn; simpl in *;
        try reflexivity; try lia. apply IH. lia. }
    rewrite !Hd by (fold len; lia). reflexivity.
Qed.

(** X1: a key of at most ten characters is printed whole by the start-up
    log, twice. *)
Theorem short_key_is_logged_whole (key : string) :
  (String.length key <= 10)%nat ->
  Log.masked_api_key key = key +:+ "..." +:+ key.
Proof.
  intros H. unfold Log.masked_api_key.
  rewrite (substring_prefix 10), substring_suffix, take_all by exact H.
  replace (Z.to_nat _) with 0%nat by lia. reflexivity.
Qed.

(** X2: a key of ten to twenty characters can be put together again from
    the two parts the start-up log prints, which overlap. *)
Theorem medium_key_is_recoverable (key : string) :
  (10 <= String.length key <= 20)%nat ->
  exists first last,
    Log.masked_api_key key = first +:+ "..." +:+ last
    /\ String.length first = 10%nat
    /\ key = first +:+ Log.drop (20 - String.length key) last.
Proof.
  intros H. exists (Log.take 10 key), (Log.drop (String.length key - 10) key).
  unfold Log.masked_api_key.
  rewrite (substring_prefix 10), substring_suffix.
  replace (Z.to_nat _) with (String.length key - 10)%nat by lia.
  split; [reflexivity|]. split.
  - apply length_take. lia.
  - rewrite drop_drop.
    replace (String.length key - 10 + (20 - String.length key))%nat with 10%nat by lia.
    symmetry. apply take_drop.
Qed.

(** X3: of a key of twenty characters or more the start-up log prints the
    first ten and the last ten, and nothing of what lies between. *)
Theorem long_key_shows_ten_and_ten (first middle last : string) :
  String.length first = 10%nat ->
  String.length last = 10%nat ->
  Log.masked_api_key (first +:+ middle +:+ last) = first +:+ "..." +:+ last.
Proof.
  intros Hf Hl. unfold Log.masked_api_key.
  rewrite (substring_prefix 10), substring_suffix.
  rewrite (take_app 10 first _ Hf).
  rewrite !length_app, Hf, Hl.
  replace (Z.to_nat _) with (String.length (first +:+ middle)) by (rewrite length_app; lia).
  rewrite <- (app_assoc first middle last).
  rewrite (drop_app _ (first +:+ middle) last eq_refl). reflexivity.
Qed.
End LogFacts.

(** ** The build configuration and the relay *)

Section BuildFacts.



(** X4: the build configuration throws, with its one message, exactly when
    neither [VITE_CUBE_API_URL] nor [CUBE_API_URL] is set to a text that is
    not empty. *)
Theorem build_fails_without_url (env : gmap string string) :
  (Vite.defineConfig env = inr Vite.missing_url
   <-> Relay.env_get env "VITE_CUBE_API_URL" = None
       /\ Relay.env_get env "CUBE_API_URL" = None)
  /\ (forall message, Vite.defineConfig env = inr message -> message = Vite.missing_url).
Proof.
  unfold Vite.defineConfig, Vite.js_or, Relay.env_get.
  destruct (env !! "VITE_CUBE_API_URL") as [[|a v]|];
    destruct (env !! "CUBE_API_URL") as [[|b u]|]; simpl;
    (split; [split|]);
    try discriminate; try (intros [H1 H2]; discriminate);
    try (intros _; split; reflexivity); try reflexivity;
    try (intros message H; congruence).
Qed.

(** X5: when the build configuration succeeds, the URL it substitutes into
    the page is not empty, so the page's own start-up check passes; it is the
    override [VITE_CUBE_API_URL] when that is set and the proxy target
    otherwise, and the proxy target is [CUBE_API_URL] whenever that is set. *)
Theorem build_url_reaches_the_app (env : gmap string string) (cfg : Vite.Config) :
  Vite.defineConfig env = inl cfg ->
  Vite.app_module_init (Some (Vite.VITE_CUBE_API_URL cfg)) = inl (Vite.VITE_CUBE_API_URL cfg)
  /\ Vite.VITE_CUBE_API_URL cfg
     = match Relay.env_get env "VITE_CUBE_API_URL" with
       | Some override => override
       | None => Vite.proxy_target cfg
       end
  /\ (forall base, Relay.env_get env "CUBE_API_URL" = Some base ->
                   Vite.proxy_target cfg = base)
  /\ (Relay.env_get env "CUBE_API_URL" = None ->
      Vite.proxy_target cfg = Vite.VITE_CUBE_API_URL cfg).
Proof.
  unfold Vite.defineConfig, Vite.js_or, Vite.app_module_init, Relay.env_get.
  destruct (env !! "VITE_CUBE_API_URL") as [[|a v]|];
    destruct (env !! "CUBE_API_URL") as [[|b u]|]; simpl;
    intros H; try discriminate; injection H as <-; simpl;
    repeat split; try discriminate; try (intros base Hb; congruence).
Qed.

(** X6: an environment with which the relay starts also builds the page,
    the development proxy targets the relay's upstream, and without the
    override the page embeds from that same upstream. *)
Theorem relay_env_builds (env : gmap string string) (c : Relay.Config) :
  Relay.startup env = Relay.Listening c ->
  exists cfg,
    Vite.defineConfig env = inl cfg
    /\ Vite.proxy_target cfg = Relay.CUBE_API_URL c
    /\ (Relay.env_get env "VITE_CUBE_API_URL" = None ->
        Vite.VITE_CUBE_API_URL cfg = Relay.CUBE_API_URL c).
Proof.
  unfold Relay.startup.
  destruct (Relay.env_get env "API_KEY") as [key|]; [|discriminate].
  destruct (Relay.env_get env "CUBE_API_URL") as [base|] eqn:Hb; [|discriminate].
  intros H. injection H as <-. cbn [Relay.CUBE_API_URL].
  revert Hb.
  unfold Vite.defineConfig, Vite.js_or, Relay.env_get.
  destruct (env !! "VITE_CUBE_API_URL") as [[|a v]|];
    destruct (env !! "CUBE_API_URL") as [[|b u]|]; simpl;
    intros H; try discriminate; injection H as <-;
    eexists; (split; [reflexivity|]); simpl; split; try reflexivity;
    try discriminate; intros _; reflexivity.
Qed.

End BuildFacts.

Section RelayFacts.
Context `{RT : JSRuntime}.

(** X7: whatever the network does, the relay issues exactly one upstream
    request and answers in one of two shapes: the generic 500 failure, when
    the call was rejected or the body could not be read (the upstream status
    is then dropped), or the upstream's own status and body. *)
Theorem relay_answers_in_two_shapes
    (net : Request -> FetchOutcome) (c : Relay.Config) (req_body : value) :
  let out := run net (Relay.generate_session c req_body) in
  snd out = [Relay.upstream_request c req_body]
  /\ ((exists message,
         (net (Relay.upstream_request c req_body) = Rejected message
          \/ exists r, net (Relay.upstream_request c req_body) = Responded r
                       /\ text r = BodyError message)
         /\ fst out = Relay.proxy_failure message)
      \/ (exists r data,
            net (Relay.upstream_request c req_body) = Responded r
            /\ text r = BodyText data
            /\ Relay.res_status (fst out) = status r
            /\ Relay.res_body (fst out) = data)).
Proof.
  cbv zeta. simpl.
  destruct (net (Relay.upstream_request c req_body)) as [message|r] eqn:Hnet.
  - simpl. split; [reflexivity|]. left. exists message. split; [left; reflexivity|reflexivity].
  - destruct (text r) as [data|message] eqn:Ht; simpl; (split; [reflexivity|]).
    + right. exists r, data. repeat split. exact Ht.
    + left. exists message. split; [right; exists r; split; [reflexivity|exact Ht]|reflexivity].
Qed.
End RelayFacts.

(** ** Outcomes of a submit and of a refresh *)

Section FormFacts.
Context `{RT : JSRuntime}.
Variable CUBE_API_URL : string.
Variable LOCAL_SERVER_URL : string.

Local Abbreviation generateSession := (App.generateSession CUBE_API_URL LOCAL_SERVER_URL).
Local Abbreviation handleSubmit := (App.handleSubmit CUBE_API_URL LOCAL_SERVER_URL).
Local Abbreviation handleRefresh := (App.handleRefresh CUBE_API_URL LOCAL_SERVER_URL).
Local Abbreviation handle := (App.handle CUBE_API_URL LOCAL_SERVER_URL).
Local Abbreviation onSettled := (App.onSettled CUBE_API_URL).
Local Abbreviation sessionRequest := (App.sessionRequest LOCAL_SERVER_URL).

(** Splits [onSettled] into its branches. *)
Ltac settle :=
  unfold App.onSettled;
  repeat match goal with
         | |- context [match ?x with _ => _ end] =>
             lazymatch x with
             | context [match _ with _ => _ end] => fail
             | App.embedAfterGeneration _ => fail
             | _ => destruct x eqn:?
             end
         end.

(** The two ways a run of [generateSession] ends. *)
Lemma run_generateSession_cases clearErrors st net :
  (exists message,
     run net (generateSession clearErrors st)
     = (App.setError (Some message) (App.cleared clearErrors st), []))
  \/ (exists attrs,
        run net (generateSession clearErrors st)
        = (App.setLoading false
             (onSettled (App.setLoading true (App.cleared clearErrors st))
                (net (sessionRequest st attrs))),
           [sessionRequest st attrs])).
Proof.
  rewrite generateSession_unfold.
  destruct (App.required_fields_present st).
  - destruct (App.parseUserAttributes st) as [attrs|message].
    + right. exists attrs. reflexivity.
    + left. eexists. reflexivity.
  - left. eexists. reflexivity.
Qed.

Lemma run_handleRefresh_cases st net :
  (exists message,
     run net (handleRefresh st) = (App.setError (Some message) st, []))
  \/ handleRefresh st = generateSession false st.
Proof.
  unfold App.handleRefresh.
  destruct (negb (Str.truthy (App.deploymentId st))); [left; eexists; reflexivity|].
  destruct (_ && _); [left; eexists; reflexivity|].
  destruct (_ && _); [left; eexists; reflexivity|].
  right. reflexivity.
Qed.

Lemma handle_keeps_form (action : App.Action) (st : App.State)
    (net : Request -> FetchOutcome) :
  App.savedConfig (fst (run net (handle action st))) = App.savedConfig st.
Proof.
  assert (Hgen : forall b, App.savedConfig (fst (run net (generateSession b st)))
                           = App.savedConfig st).
  { intros b.
    destruct (run_generateSession_cases b st net) as [[message ->]|[attrs ->]].
    - destruct b; reflexivity.
    - cbn [fst]. generalize (net (sessionRequest st attrs)). intros out.
      settle; destruct b; cbn; destruct (App.embedAfterGeneration st); reflexivity. }
  destruct action; cbn [App.handle].
  - apply Hgen.
  - destruct (run_handleRefresh_cases st net) as [[message ->]| ->];
      [reflexivity|apply Hgen].
Qed.


(** X8: a submit or a refresh, however it ends, leaves every persisted
    field of the form as it was. *)
Theorem actions_keep_the_form (action : App.Action) (st : App.State)
    (net : Request -> FetchOutcome) :
  App.savedConfig (fst (run net (handle action st))) = App.savedConfig st.
Proof. exact (handle_keeps_form action st net). Qed.

(** X9: a submit ends in one of two shapes: an error with nothing displayed, or a
    success message with the URL displayed and no error. *)
Theorem submit_ends_in_error_or_success (st : App.State)
    (net : Request -> FetchOutcome) :
  let st' := fst (run net (handleSubmit st)) in
  (exists message,
     App.error st' = Some message /\ App.success st' = None
     /\ App.embedUrl st' = None /\ App.displayEmbedUrl st' = None)
  \/ (exists url newSessionId notice,
        App.error st' = None /\ App.success st' = Some notice
        /\ App.sessionId st' = Some newSessionId
        /\ App.displayEmbedUrl st' = Some url
        /\ App.embedUrl st' = (if App.embedAfterGeneration st then Some url else None)).
Proof.
  cbv zeta. unfold App.handleSubmit.
  destruct (run_generateSession_cases true st net) as [[message ->]|[attrs ->]].
  - left. exists message. repeat split.
  - cbn [fst]. generalize (net (sessionRequest st attrs)). intros out.
    settle;
      try (left; eexists; repeat split; fail);
      right; do 3 eexists; cbn; destruct (App.embedAfterGeneration st); repeat split.
Qed.

(** X10: a refresh ends in one of two shapes: an error with the embed, the URL and
    the success message left as they were, or a success with the new URL and
    the error left as it was. *)
Theorem refresh_ends_in_error_or_success (st : App.State)
    (net : Request -> FetchOutcome) :
  let st' := fst (run net (handleRefresh st)) in
  (exists message,
     App.error st' = Some message /\ App.success st' = App.success st
     /\ App.embedUrl st' = App.embedUrl st
     /\ App.displayEmbedUrl st' = App.displayEmbedUrl st
     /\ App.iframeError st' = App.iframeError st)
  \/ (exists url newSessionId notice,
        App.error st' = App.error st /\ App.success st' = Some notice
        /\ App.sessionId st' = Some newSessionId
        /\ App.displayEmbedUrl st' = Some url
        /\ App.embedUrl st' = (if App.embedAfterGeneration st then Some url else None)).
Proof.
  cbv zeta.
  destruct (run_handleRefresh_cases st net) as [[message ->]| ->].
  { left. exists message. repeat split. }
  destruct (run_generateSession_cases false st net) as [[message ->]|[attrs ->]].
  - left. exists message. repeat split.
  - cbn [fst]. generalize (net (sessionRequest st attrs)). intros out.
    settle;
      try (left; eexists; repeat split; fail);
      right; do 3 eexists; cbn; destruct (App.embedAfterGeneration st); repeat split.
Qed.

(** X11: an action issues at most one request; after it [loading] is false
    when a request was made, and as it was when none was. *)
Theorem loading_ends (action : App.Action) (st : App.State)
    (net : Request -> FetchOutcome) :
  let out := run net (handle action st) in
  App.loading (fst out)
  = match snd out with
    | [] => App.loading st
    | _ :: _ => false
    end
  /\ (length (snd out) <= 1)%nat.
Proof.
  cbv zeta.
  assert (Hgen : forall b,
             App.loading (fst (run net (generateSession b st)))
             = match snd (run net (generateSession b st)) with
               | [] => App.loading st
               | _ :: _ => false
               end
             /\ (length (snd (run net (generateSession b st))) <= 1)%nat).
  { intros b.
    destruct (run_generateSession_cases b st net) as [[message ->]|[attrs ->]].
    - split; [destruct b; reflexivity|simpl; lia].
    - split; [reflexivity|simpl; lia]. }
  destruct action; cbn [App.handle].
  - apply Hgen.
  - destruct (run_handleRefresh_cases st net) as [[message ->]| ->].
    + split; [reflexivity|simpl; lia].
    + apply Hgen.
Qed.

(** A settled request that brought a session identifier with a text clears
    the iframe error when the embed is mounted and keeps it otherwise. *)
Lemma onSettled_session_iframeError st r data (sessionData newSessionId : value) sid :
  ok r = true ->
  text r = BodyText data ->
  JSON_parse data = Parsed sessionData ->
  get_prop sessionData "sessionId" = Got (Some newSessionId) ->
  truthy newSessionId = true ->
  toString newSessionId = Some sid ->
  App.iframeError (onSettled st (Responded r))
  = (if App.embedAfterGeneration st then None else App.iframeError st).
Proof.
  intros Hok Htext Hparse Hget Htruthy Hstr. unfold App.onSettled.
  rewrite Hok, Htext, Hparse, Hget, Htruthy, Hstr. cbn.
  destruct (App.embedAfterGeneration st); reflexivity.
Qed.

(** A settled request changes the iframe error in that one case only. *)
Lemma onSettled_iframeError_changed st out :
  App.iframeError (onSettled st out) = App.iframeError st
  \/ exists r data (sessionData newSessionId : value) sid url,
       out = Responded r /\ ok r = true /\ text r = BodyText data
       /\ JSON_parse data = Parsed sessionData
       /\ get_prop sessionData "sessionId" = Got (Some newSessionId)
       /\ truthy newSessionId = true /\ toString newSessionId = Some sid
       /\ App.embedAfterGeneration st = true
       /\ App.iframeError (onSettled st out) = None
       /\ App.embedUrl (onSettled st out) = Some url
       /\ App.displayEmbedUrl (onSettled st out) = Some url.
Proof.
  unfold App.onSettled.
  destruct out as [message|r]; [left; reflexivity|].
  destruct (ok r) eqn:Hok; cbn [negb]; [|destruct (text r); left; reflexivity].
  destruct (text r) as [data|message] eqn:Htext; [|left; reflexivity].
  destruct (JSON_parse data) as [sessionData|message] eqn:Hparse; [|left; reflexivity].
  destruct (get_prop sessionData "sessionId") as [[newSessionId|]|] eqn:Hget;
    try (left; reflexivity).
  destruct (truthy newSessionId) eqn:Htruthy; cbn [negb]; [|left; reflexivity].
  destruct (toString newSessionId) as [sid|] eqn:Hstr; [|left; reflexivity].
  cbn. destruct (App.embedAfterGeneration st) eqn:He; [|left; reflexivity].
  right. exists r, data, sessionData, newSessionId, sid. eexists.
  repeat split; try eassumption; reflexivity.
Qed.

(** X12: an action that is answered with a session identifier clears the
    iframe error when the embed is mounted ([embedAfterGeneration] on) and
    keeps it when it is not; and that is the only case in which an action
    changes the iframe error. *)
Theorem iframe_error_after_action (action : App.Action) (st : App.State)
    (net : Request -> FetchOutcome) :
  let out := run net (handle action st) in
  let st' := fst out in
  (forall req r data (sessionData newSessionId : value) sid,
      snd out = [req] ->
      net req = Responded r ->
      ok r = true ->
      text r = BodyText data ->
      JSON_parse data = Parsed sessionData ->
      get_prop sessionData "sessionId" = Got (Some newSessionId) ->
      truthy newSessionId = true ->
      toString newSessionId = Some sid ->
      App.iframeError st'
      = (if App.embedAfterGeneration st then None else App.iframeError st))
  /\ (App.iframeError st' = App.iframeError st
      \/ exists req r data (sessionData newSessionId : value) sid url,
           snd out = [req] /\ net req = Responded r
           /\ ok r = true /\ text r = BodyText data
           /\ JSON_parse data = Parsed sessionData
           /\ get_prop sessionData "sessionId" = Got (Some newSessionId)
           /\ truthy newSessionId = true /\ toString newSessionId = Some sid
           /\ App.embedAfterGeneration st = true
           /\ App.iframeError st' = None
           /\ App.embedUrl st' = Some url
           /\ App.displayEmbedUrl st' = Some url).
Proof.
  cbv zeta.
  assert (Hgen : forall b,
             (forall req r data (sessionData newSessionId : value) sid,
                 snd (run net (generateSession b st)) = [req] ->
                 net req = Responded r ->
                 ok r = true ->
                 text r = BodyText data ->
                 JSON_parse data = Parsed sessionData ->
                 get_prop sessionData "sessionId" = Got (Some newSessionId) ->
                 truthy newSessionId = true ->
                 toString newSessionId = Some sid ->
                 App.iframeError (fst (run net (generateSession b st)))
                 = (if App.embedAfterGeneration st then None else App.iframeError st))
             /\ (App.iframeError (fst (run net (generateSession b st))) = App.iframeError st
                 \/ exists req r data (sessionData newSessionId : value) sid url,
                      snd (run net (generateSession b st)) = [req]
                      /\ net req = Responded r
                      /\ ok r = true /\ text r = BodyText data
                      /\ JSON_parse data = Parsed sessionData
                      /\ get_prop sessionData "sessionId" = Got (Some newSessionId)
                      /\ truthy newSessionId = true /\ toString newSessionId = Some sid
                      /\ App.embedAfterGeneration st = true
                      /\ App.iframeError (fst (run net (generateSession b st))) = None
                      /\ App.embedUrl (fst (run net (generateSession b st))) = Some url
                      /\ App.displayEmbedUrl (fst (run net (generateSession b st)))
                         = Some url)).
  { intros b. split.
    - intros req r data sessionData newSessionId sid
        Hsent Hnet Hok Htext Hparse Hget Htruthy Hstr.
      apply run_generateSession in Hsent as (attrs & _ & _ & Hrun).
      rewrite Hrun, Hnet.
      change (App.iframeError (App.setLoading false ?x)) with (App.iframeError x).
      rewrite (onSettled_session_iframeError _ r data sessionData newSessionId sid
                 Hok Htext Hparse Hget Htruthy Hstr).
      destruct b; reflexivity.
    - destruct (run_generateSession_cases b st net) as [[message Hrun]|[attrs Hrun]];
        rewrite Hrun; cbn [fst snd].
      + left. destruct b; reflexivity.
      + change (App.iframeError (App.setLoading false ?x)) with (App.iframeError x).
        change (App.embedUrl (App.setLoading false ?x)) with (App.embedUrl x).
        change (App.displayEmbedUrl (App.setLoading false ?x))
          with (App.displayEmbedUrl x).
        destruct (onSettled_iframeError_changed
                    (App.setLoading true (App.cleared b st))
                    (net (sessionRequest st attrs)))
          as [Hsame|(r & data & sessionData & newSessionId & sid & url & Hnet & Hok
                     & Htext & Hparse & Hget & Htruthy & Hstr & He & Hi & Hu & Hd)].
        * left. rewrite Hsame. destruct b; reflexivity.
        * right. exists (sessionRequest st attrs), r, data, sessionData, newSessionId,
            sid, url.
          repeat split; try assumption.
          revert He. destruct b; exact (fun H => H). }
  destruct action; cbn [App.handle].
  - apply Hgen.
  - destruct (run_handleRefresh_cases st net) as [[message Hrun]|Hrun]; rewrite Hrun.
    + split; [intros; discriminate|left; reflexivity].
    + apply Hgen.
Qed.


Lemma trim_empty_of_blank_check s :
  negb (Str.truthy (Str.trim s)) = true -> Str.trim s = EmptyString.
Proof. destruct (Str.trim s); [reflexivity|discriminate]. Qed.

(** [generateSession] stops before the network exactly when validation
    fails. *)
Lemma generateSession_stops_iff clearErrors st net :
  snd (run net (generateSession clearErrors st)) = [] <-> App.validation_fails st.
Proof.
  split.
  - rewrite generateSession_unfold.
    destruct (App.required_fields_present st) eqn:Hreq.
    + destruct (App.parseUserAttributes st) as [attrs|message] eqn:Hp; [discriminate|].
      intros _. right; right; right.
      unfold App.parseUserAttributes in Hp.
      destruct (String.eqb_spec (App.userIdType st) "external") as [E|E]; [|discriminate].
      destruct (Str.trim (App.userAttributes st)) eqn:Ht; [discriminate|]. simpl in Hp.
      split; [exact E|]. split; [discriminate|].
      intros items Hparsed. rewrite Hparsed in Hp. discriminate.
    + intros _. unfold App.required_fields_present in Hreq.
      apply andb_false_iff in Hreq as [Hreq|Hreq];
        [apply andb_false_iff in Hreq as [Hreq|Hreq]|];
        apply negb_false_iff, andb_prop in Hreq as [Hk Hb];
        apply String.eqb_eq in Hk; apply trim_empty_of_blank_check in Hb.
      * left. split; assumption.
      * right; left. split; assumption.
      * right; right; left. split; assumption.
  - intros Hfail. rewrite generateSession_unfold.
    destruct (App.required_fields_present st) eqn:Hreq; [|reflexivity].
    destruct (App.parseUserAttributes st) as [a|m] eqn:Hp; [|reflexivity].
    exfalso.
    unfold App.required_fields_present in Hreq.
    apply andb_prop in Hreq as [Hreq Hint]. apply andb_prop in Hreq as [Hdash Hext].
    destruct Hfail as [[Ht Hd]|[[Hu He]|[[Hu Hi]|(Hu & Hne & Hparse)]]].
    + rewrite (eqb_lit _ _ Ht), (truthy_trim_false _ Hd) in Hdash. discriminate.
    + rewrite (eqb_lit _ _ Hu), (truthy_trim_false _ He) in Hext. discriminate.
    + rewrite (eqb_lit _ _ Hu), (truthy_trim_false _ Hi) in Hint. discriminate.
    + destruct (parseUserAttributes_fails st Hu Hne Hparse) as [detail Hd].
      congruence.
Qed.

(** X13: a submit reaches the network exactly when validation passes, and then
    with the one session request; the deployment id plays no part. *)
Theorem submit_sends_iff_valid (st : App.State) (net : Request -> FetchOutcome) :
  (snd (run net (handleSubmit st)) = [] <-> App.validation_fails st)
  /\ (snd (run net (handleSubmit st)) = []
      \/ exists attrs,
           App.parseUserAttributes st = inl attrs
           /\ snd (run net (handleSubmit st)) = [sessionRequest st attrs]).
Proof.
  unfold App.handleSubmit. split; [apply generateSession_stops_iff|].
  rewrite generateSession_unfold.
  destruct (App.required_fields_present st); [|left; reflexivity].
  destruct (App.parseUserAttributes st) as [attrs|message]; [|left; reflexivity].
  right. exists attrs. split; reflexivity.
Qed.

(** X14: a refresh reaches the network exactly when the deployment id is not
    empty and validation passes. *)
Theorem refresh_sends_iff_valid (st : App.State) (net : Request -> FetchOutcome) :
  snd (run net (handleRefresh st)) = []
  <-> App.deploymentId st = EmptyString \/ App.validation_fails st.
Proof.
  unfold App.handleRefresh.
  destruct (App.deploymentId st) as [|a d] eqn:Hd; cbn [Str.truthy negb].
  { split; [intros _; left; reflexivity|reflexivity]. }
  assert (Hgen : snd (run net (generateSession false st)) = []
                 <-> String a d = EmptyString \/ App.validation_fails st).
  { rewrite generateSession_stops_iff.
    split; [intros H; right; exact H|intros [H|H]; [discriminate|exact H]]. }
  destruct (String.eqb_spec (App.userIdType st) "external") as [Eu|Eu]; cbn [andb].
  - destruct (App.externalId st) as [|b e] eqn:He; cbn [Str.truthy negb].
    + split; [|reflexivity]. intros _. right. right; left.
      split; [exact Eu|]. rewrite He. reflexivity.
    + destruct (String.eqb_spec (App.userIdType st) "internal") as [Ei|Ei];
        [congruence|]. exact Hgen.
  - destruct (String.eqb_spec (App.userIdType st) "internal") as [Ei|Ei]; cbn [andb].
    + destruct (App.internalId st) as [|b e] eqn:He; cbn [Str.truthy negb].
      * split; [|reflexivity]. intros _. right. right; right; left.
        split; [exact Ei|]. rewrite He. reflexivity.
      * exact Hgen.
    + exact Hgen.
Qed.


(** X15: the payload has the deployment id first, then one identity, then the
    attributes when there are any, then [creatorMode] for the app embed type;
    nothing else, the dashboard id in particular, is ever sent. *)
Theorem payload_keys (st : App.State) (attrs : option value) :
  exists props,
    App.requestBody st attrs = JObj props
    /\ map fst props
       = "deploymentId"
         :: (if String.eqb (App.userIdType st) "external"
             then "externalId"
                  :: (if truthy_opt attrs then ["userAttributes"] else [])
             else ["internalId"])
         ++ (if String.eqb (App.embedType st) "app" then ["creatorMode"] else [])
    /\ assoc_get "deploymentId" props = Some (JNum (parseInt (App.deploymentId st))).
Proof.
  unfold App.requestBody.
  destruct (String.eqb (App.userIdType st) "external");
    destruct (String.eqb (App.embedType st) "app");
    try (destruct attrs as [a|]; [cbn [truthy_opt]; destruct (truthy a)|]);
    eexists; repeat split.
Qed.

(** X16: attributes that an external user entered reach the payload as the array
    they parse to, whatever its elements are. *)
Theorem attributes_are_sent_as_parsed
    (clearErrors : bool) (st : App.State) (net : Request -> FetchOutcome)
    (req : Request) :
  snd (run net (generateSession clearErrors st)) = [req] ->
  App.userIdType st = "external" ->
  Str.trim (App.userAttributes st) <> EmptyString ->
  exists items,
    JSON_parse (App.userAttributes st) = Parsed (JArr items)
    /\ body req = JSON_stringify (App.requestBody st (Some (JArr items)))
    /\ get_prop (App.requestBody st (Some (JArr items))) "userAttributes"
       = Got (Some (JArr items)).
Proof.
  intros Hsent Hu Hne.
  apply run_generateSession in Hsent as (attrs & Hp & -> & _).
  unfold App.parseUserAttributes in Hp.
  rewrite (eqb_lit _ _ Hu), (truthy_trim_true _ Hne) in Hp. cbn [andb] in Hp.
  destruct (JSON_parse (App.userAttributes st)) as [v|m]; [|discriminate].
  destruct v as [| | | |items|]; try discriminate.
  injection Hp as <-. exists items. split; [reflexivity|]. split; [reflexivity|].
  unfold App.requestBody. rewrite (eqb_lit _ _ Hu). cbn [truthy].
  destruct (String.eqb (App.embedType st) "app"); reflexivity.
Qed.

(** X17: a truthy session identifier that has no text (an object with a
    [toString] property of its own) is stored, and then reported as an
    error: no URL is set. *)
Theorem session_id_without_text
    (clearErrors : bool) (st : App.State) (net : Request -> FetchOutcome)
    (req : Request) (r : Response) (data : string)
    (sessionData newSessionId : value) :
  snd (run net (generateSession clearErrors st)) = [req] ->
  net req = Responded r ->
  ok r = true ->
  text r = BodyText data ->
  JSON_parse data = Parsed sessionData ->
  get_prop sessionData "sessionId" = Got (Some newSessionId) ->
  truthy newSessionId = true ->
  toString newSessionId = None ->
  let st' := fst (run net (generateSession clearErrors st)) in
  App.sessionId st' = Some newSessionId
  /\ App.error st' = Some msg_no_primitive
  /\ App.success st' = (if clearErrors then None else App.success st)
  /\ App.embedUrl st' = (if clearErrors then None else App.embedUrl st)
  /\ App.displayEmbedUrl st' = (if clearErrors then None else App.displayEmbedUrl st).
Proof.
  intros Hsent Hnet Hok Htext Hparse Hget Htruthy Hstr.
  apply run_generateSession in Hsent as (attrs & _ & _ & Hrun).
  cbv zeta. rewrite Hrun, Hnet. clear Hrun.
  unfold App.onSettled. rewrite Hok, Htext, Hparse, Hget, Htruthy, Hstr.
  cbn [negb]. destruct clearErrors; repeat split.
Qed.

End FormFacts.

(** ** Reading the store *)

Section AssocFacts.
Context {V : Type}.

Lemma assoc_get_set_same k (v : V) props : assoc_get k (assoc_set k v props) = Some v.
Proof.
  induction props as [|[k' v'] props IH]; simpl.
  - rewrite String.eqb_refl. reflexivity.
  - destruct (String.eqb k k') eqn:E; simpl; rewrite ?String.eqb_refl, ?E; auto.
Qed.

Lemma assoc_get_set_other k k' (v : V) props :
  k' <> k -> assoc_get k' (assoc_set k v props) = assoc_get k' props.
Proof.
  intros Hne. induction props as [|[k0 v0] props IH]; simpl.
  - destruct (String.eqb_spec k' k); [contradiction|reflexivity].
  - destruct (String.eqb_spec k k0) as [->|E]; simpl.
    + destruct (String.eqb_spec k' k0); [contradiction|reflexivity].
    + rewrite IH. reflexivity.
Qed.

Lemma assoc_set_keys k (v v0 : V) props :
  assoc_get k props = Some v0 ->
  map fst (assoc_set k v props) = map fst props.
Proof.
  induction props as [|[k' v'] props IH]; simpl; [discriminate|].
  destruct (String.eqb_spec k k') as [->|E]; simpl; [reflexivity|].
  intros H. rewrite IH by exact H. reflexivity.
Qed.
End AssocFacts.

Section PersistenceFacts.
Context `{RT : JSRuntime}.

(** X18: reading a stored object, the only change is the embed type [home],
    which is read as [app], in its place. *)
Theorem load_changes_only_home
    (localStorage : gmap string string) (saved : string)
    (props : list (string * value)) :
  localStorage !! App.STORAGE_KEY = Some saved ->
  saved <> EmptyString ->
  JSON_parse saved = Parsed (JObj props) ->
  exists props',
    App.loadSavedConfig localStorage = JObj props'
    /\ map fst props' = map fst props
    /\ (forall k, k <> "embedType" -> assoc_get k props' = assoc_get k props)
    /\ assoc_get "embedType" props'
       = match assoc_get "embedType" props with
         | Some (JStr t) => Some (JStr (App.migrate t))
         | other => other
         end.
Proof.
  intros Hget Hne Hparse. unfold App.loadSavedConfig.
  rewrite Hget. destruct saved as [|a saved]; [congruence|]. cbn [Str.truthy].
  rewrite Hparse. cbn [get_prop]. unfold value in *.
  destruct (assoc_get "embedType" props) as [v|] eqn:Hv.
  - destruct v as [|b|n|t|items|ps];
      try (exists props; rewrite Hv; repeat split; fail).
    unfold App.migrate. destruct (String.eqb t "home") eqn:Ht.
    + cbn [set_prop]. eexists. split; [reflexivity|]. split; [|split].
      * eapply assoc_set_keys. exact Hv.
      * intros k Hk. apply assoc_get_set_other. exact Hk.
      * apply assoc_get_set_same.
    + exists props. rewrite Hv. repeat split.
  - exists props. rewrite Hv. repeat split.
Qed.

(** X19: a store without a usable saved object (no entry, an empty text, a text
    that does not parse, or one that parses to anything but an object) mounts
    the form with its defaults. *)
Theorem unusable_store_mounts_defaults (localStorage : gmap string string) :
  (forall saved props,
      localStorage !! App.STORAGE_KEY = Some saved ->
      saved <> EmptyString ->
      JSON_parse saved <> Parsed (JObj props)) ->
  App.mount localStorage = Some Ui.defaults.
Proof.
  intros Hbad. unfold App.mount, App.loadSavedConfig.
  destruct (localStorage !! App.STORAGE_KEY) as [saved|] eqn:Hget; [|reflexivity].
  destruct saved as [|a saved]; [reflexivity|]. cbn [Str.truthy].
  destruct (JSON_parse (String a saved)) as [config|message] eqn:Hparse; [|reflexivity].
  destruct config as [|b|n|s|items|props]; try reflexivity.
  exfalso. exact (Hbad _ props eq_refl ltac:(discriminate) Hparse).
Qed.

Lemma reloaded_idempotent (st : App.State) :
  App.reloaded (App.reloaded st) = App.reloaded st.
Proof.
  unfold App.reloaded. cbn. f_equal.
  - unfold App.or_default. destruct (App.userIdType st); reflexivity.
  - unfold App.or_default. destruct (App.externalId st); reflexivity.
  - unfold App.or_default, App.migrate.
    destruct (String.eqb (App.embedType st) "home") eqn:E; [reflexivity|].
    destruct (App.embedType st) as [|a t] eqn:Et; [reflexivity|].
    cbn [Str.truthy]. rewrite E. reflexivity.
Qed.

(** X20: what one reload restored, every later save and reload restores
    unchanged. *)
Theorem reload_is_stable (st : App.State) (localStorage localStorage' : gmap string string) :
  JSON_stringify (App.savedConfig st) <> EmptyString ->
  JSON_parse (JSON_stringify (App.savedConfig st)) = Parsed (App.savedConfig st) ->
  JSON_stringify (App.savedConfig (App.reloaded st)) <> EmptyString ->
  JSON_parse (JSON_stringify (App.savedConfig (App.reloaded st)))
  = Parsed (App.savedConfig (App.reloaded st)) ->
  exists st1,
    App.mount (App.saveConfig st localStorage) = Some st1
    /\ App.mount (App.saveConfig st1 localStorage') = Some st1.
Proof.
  intros Hne Hround Hne' Hround'. exists (App.reloaded st).
  split; [exact (mount_saveConfig st localStorage Hne Hround)|].
  rewrite (mount_saveConfig (App.reloaded st) localStorage' Hne' Hround').
  rewrite reloaded_idempotent. reflexivity.
Qed.

End PersistenceFacts.

(** ** The page under its events *)

Section PageFacts.
Context `{RT : JSRuntime}.
Variable CUBE_API_URL : string.
Variable LOCAL_SERVER_URL : string.

Variable accepts : gmap string string -> string -> string -> bool.

Local Abbreviation handleEvent := (Ui.handleEvent CUBE_API_URL LOCAL_SERVER_URL).
Local Abbreviation dispatch := (Ui.dispatch CUBE_API_URL LOCAL_SERVER_URL accepts).
Local Abbreviation reachable := (Ui.reachable CUBE_API_URL LOCAL_SERVER_URL accepts).

(** The fields the form persists, read off the saved object. *)
Lemma savedConfig_inj (st st' : App.State) :
  App.savedConfig st' = App.savedConfig st ->
  App.userIdType st' = App.userIdType st
  /\ App.embedType st' = App.embedType st
  /\ App.userAttributes st' = App.userAttributes st
  /\ App.externalId st' = App.externalId st.
Proof. unfold App.savedConfig. intros H. injection H. intros. repeat split; assumption. Qed.

Lemma deps_unchanged_true (st st' : App.State) :
  Ui.deps_unchanged st st' = true -> App.savedConfig st' = App.savedConfig st.
Proof.
  unfold Ui.deps_unchanged. intros H.
  repeat (apply andb_prop in H as [H ?]).
  repeat match goal with
         | E : String.eqb _ _ = true |- _ => apply String.eqb_eq in E
         | E : Bool.eqb _ _ = true |- _ => apply Bool.eqb_prop in E
         end.
  unfold App.savedConfig. congruence.
Qed.

(** Every event the page offers keeps the radio groups at values they offer
    and keeps an internal user without attributes text. *)
Lemma offered_event_keeps_types net ev st :
  Ui.offered st ev = true ->
  App.well_typed st /\ Ui.no_attributes_when_internal st ->
  App.well_typed (handleEvent net ev st)
  /\ Ui.no_attributes_when_internal (handleEvent net ev st).
Proof.
  intros Hoff [[Hu Ht] Hattr]. unfold Ui.no_attributes_when_internal in *.
  assert (Hact : forall action,
             let st' := fst (run net (App.handle CUBE_API_URL LOCAL_SERVER_URL action st)) in
             App.well_typed st'
             /\ (App.userIdType st' = "internal" -> App.userAttributes st' = EmptyString)).
  { intros action st'.
    destruct (savedConfig_inj st st' (handle_keeps_form CUBE_API_URL LOCAL_SERVER_URL action st net))
      as (Eu & Et & Ea & _).
    unfold App.well_typed. rewrite Eu, Et, Ea. auto. }
  destruct ev as [v|choice|v|v|choice|v|v|checked| | | | | | ];
    cbn [Ui.handleEvent Ui.offered] in *;
    try (split; [split; assumption|exact Hattr]).
  - (* user id type *)
    apply orb_prop in Hoff as [Hv|Hv]; apply String.eqb_eq in Hv; subst choice;
      split; try (split; [auto|exact Ht]); cbn; [discriminate|reflexivity].
  - (* embed type *)
    split; [split; [exact Hu|]|exact Hattr]. cbn.
    apply orb_prop in Hoff as [Hv|Hv]; [apply orb_prop in Hv as [Hv|Hv]|];
      apply String.eqb_eq in Hv; auto.
  - (* attributes *)
    apply String.eqb_eq in Hoff. split; [split; assumption|]. cbn.
    rewrite Hoff. discriminate.
  - exact (Hact App.Submit).
  - exact (Hact App.Refresh).
Qed.

Lemma reachable_keeps_types (w0 w : Ui.World) :
  reachable w0 w ->
  App.well_typed (fst w0) ->
  Ui.no_attributes_when_internal (fst w0) ->
  App.well_typed (fst w) /\ Ui.no_attributes_when_internal (fst w).
Proof.
  intros Hreach Hwt Hna. induction Hreach as [|w net ev Hreach IH Hoff].
  - split; assumption.
  - cbn [Ui.dispatch fst]. apply offered_event_keeps_types; assumption.
Qed.

(** Every event the page offers keeps the radio groups at values they
    offer. *)
Lemma offered_event_well_typed net ev st :
  Ui.offered st ev = true ->
  App.well_typed st ->
  App.well_typed (handleEvent net ev st).
Proof.
  intros Hoff [Hu Ht].
  assert (Hact : forall action,
             App.well_typed
               (fst (run net (App.handle CUBE_API_URL LOCAL_SERVER_URL action st)))).
  { intros action.
    destruct (savedConfig_inj st _ (handle_keeps_form CUBE_API_URL LOCAL_SERVER_URL action st net))
      as (Eu & Et & _).
    unfold App.well_typed. rewrite Eu, Et. auto. }
  destruct ev as [v|choice|v|v|choice|v|v|checked| | | | | | ];
    cbn [Ui.handleEvent Ui.offered] in *;
    try (split; assumption).
  - (* user id type *)
    apply orb_prop in Hoff as [Hv|Hv]; apply String.eqb_eq in Hv; subst choice;
      (split; [cbn; auto|exact Ht]).
  - (* embed type *)
    split; [exact Hu|]. cbn.
    apply orb_prop in Hoff as [Hv|Hv]; [apply orb_prop in Hv as [Hv|Hv]|];
      apply String.eqb_eq in Hv; auto.
  - exact (Hact App.Submit).
  - exact (Hact App.Refresh).
Qed.

Lemma reachable_well_typed (w0 w : Ui.World) :
  reachable w0 w ->
  App.well_typed (fst w0) ->
  App.well_typed (fst w).
Proof.
  intros Hreach Hwt. induction Hreach as [|w net ev Hreach IH Hoff].
  - exact Hwt.
  - cbn [Ui.dispatch fst]. apply offered_event_well_typed; assumption.
Qed.

(** A save the browser accepts leaves the configuration in the store. *)
Lemma saveEffect_accepted (st : App.State) (localStorage : gmap string string) :
  Ui.accepts_every_save accepts ->
  App.saveEffect accepts st localStorage = App.saveConfig st localStorage.
Proof.
  intros Hacc. unfold App.saveEffect, App.setItem. rewrite Hacc. reflexivity.
Qed.

(** A save the browser refuses leaves the store as it was. *)
Lemma saveEffect_refused (st : App.State) (localStorage : gmap string string) :
  accepts localStorage App.STORAGE_KEY (JSON_stringify (App.savedConfig st)) = false ->
  App.saveEffect accepts st localStorage = localStorage.
Proof.
  intros Href. unfold App.saveEffect, App.setItem. rewrite Href. reflexivity.
Qed.

Lemma reachable_in_sync (localStorage : gmap string string) (w0 w : Ui.World) :
  Ui.accepts_every_save accepts ->
  Ui.mounted accepts localStorage = Some w0 ->
  reachable w0 w ->
  Ui.in_sync w.
Proof.
  intros Hacc Hmount Hreach. induction Hreach as [|w net ev Hreach IH Hoff].
  - unfold Ui.mounted in Hmount.
    destruct (App.mount localStorage) as [st|]; [|discriminate].
    injection Hmount as <-. unfold Ui.in_sync. cbn [fst snd].
    rewrite (saveEffect_accepted _ _ Hacc). apply lookup_insert_eq.
  - unfold Ui.in_sync, Ui.dispatch, Ui.after_render in *. cbn [fst snd].
    destruct (Ui.deps_unchanged (fst w) (handleEvent net ev (fst w))) eqn:Hd.
    + rewrite (deps_unchanged_true _ _ Hd). exact IH.
    + rewrite (saveEffect_accepted _ _ Hacc). apply lookup_insert_eq.
Qed.

(** X21: through every sequence of events the page offers, the two radio
    groups stay at values they offer and an internal user has no attributes
    text, when that was so at the start. *)
Theorem page_keeps_types (w0 w : Ui.World) :
  reachable w0 w ->
  App.well_typed (fst w0) ->
  Ui.no_attributes_when_internal (fst w0) ->
  App.well_typed (fst w) /\ Ui.no_attributes_when_internal (fst w).
Proof. exact (reachable_keeps_types w0 w). Qed.

(** X22: in a browser that accepts every write of the configuration, after
    the first render and after every event the store holds the configuration
    that is on screen.  (A write the browser refuses is caught by the save
    effect and leaves the store as it was, [saveEffect_refused].) *)
Theorem store_follows_the_form (localStorage : gmap string string) (w0 w : Ui.World) :
  Ui.accepts_every_save accepts ->
  Ui.mounted accepts localStorage = Some w0 ->
  reachable w0 w ->
  Ui.in_sync w.
Proof. exact (reachable_in_sync localStorage w0 w). Qed.

End PageFacts.

(** ** Closing and opening the page again, on the reference runtime *)

Section Reopening.
Import Ref.
Variable CUBE_API_URL : string.
Variable LOCAL_SERVER_URL : string.
Variable accepts : gmap string string -> string -> string -> bool.

(** Mounting reads one entry of the store. *)
Lemma mount_reads_one_entry (localStorage localStorage' : gmap string string) :
  localStorage !! App.STORAGE_KEY = localStorage' !! App.STORAGE_KEY ->
  App.mount localStorage = App.mount localStorage'.
Proof. intros H. unfold App.mount, App.loadSavedConfig. rewrite H. reflexivity. Qed.

(** X23: on the reference runtime and in a browser that accepts every
    write of the configuration, at any point of a visit that started with
    the radio groups at values they offer, opening the page again restores
    every persisted field of the form as it is on screen, provided the
    external id is not empty. *)
Theorem reopening_restores_the_form
    (localStorage : gmap string string) (w0 w : Ui.World) :
  Ui.accepts_every_save accepts ->
  Ui.mounted accepts localStorage = Some w0 ->
  App.well_typed (fst w0) ->
  Ui.reachable CUBE_API_URL LOCAL_SERVER_URL accepts w0 w ->
  App.externalId (fst w) <> EmptyString ->
  exists st',
    App.mount (snd w) = Some st'
    /\ App.savedConfig st' = App.savedConfig (fst w).
Proof.
  intros Hacc Hmount Hwt Hreach Hext.
  pose proof (reachable_in_sync CUBE_API_URL LOCAL_SERVER_URL accepts localStorage w0 w
                Hacc Hmount Hreach) as Hsync.
  pose proof (reachable_well_typed CUBE_API_URL LOCAL_SERVER_URL accepts w0 w Hreach Hwt)
    as Hwt'.
  exists (App.reloaded (fst w)). split.
  - rewrite (mount_reads_one_entry (snd w) (App.saveConfig (fst w) ∅)).
    + apply ref_mount_saveConfig.
    + unfold Ui.in_sync in Hsync. rewrite Hsync.
      unfold App.saveConfig. rewrite lookup_insert_eq. reflexivity.
  - apply reloaded_well_typed; assumption.
Qed.

End Reopening.

(** ** The further properties at sample inputs *)

Section FurtherSamples.
Import Ref.

(** X1 at a sample input: the key [secret]. *)
Lemma X1_secret : Log.masked_api_key "secret" = "secret...secret".
Proof. exact (short_key_is_logged_whole "secret" ltac:(simpl; lia)). Defined.

(** X2 at a sample input: a key of sixteen characters. *)
Lemma X2_sixteen :
  exists first last,
    Log.masked_api_key Sample.key16 = first +:+ "..." +:+ last
    /\ String.length first = 10%nat
    /\ Sample.key16 = first +:+ Log.drop (20 - String.length Sample.key16) last.
Proof. exact (medium_key_is_recoverable Sample.key16 ltac:(simpl; lia)). Defined.

(** X3 at a sample input: a key of twenty-eight characters. *)
Lemma X3_hidden_middle :
  Log.masked_api_key ("0123456789" +:+ "-hidden-" +:+ "abcdefghij")
  = "0123456789" +:+ "..." +:+ "abcdefghij".
Proof.
  exact (long_key_shows_ten_and_ten "0123456789" "-hidden-" "abcdefghij"
           eq_refl eq_refl).
Defined.

(** X5 at a sample input: an environment with the override. *)
Lemma X5_override :
  Vite.app_module_init (Some (Vite.VITE_CUBE_API_URL Sample.build_with_override))
  = inl (Vite.VITE_CUBE_API_URL Sample.build_with_override)
  /\ Vite.VITE_CUBE_API_URL Sample.build_with_override
     = match Relay.env_get Sample.env_with_override "VITE_CUBE_API_URL" with
       | Some override => override
       | None => Vite.proxy_target Sample.build_with_override
       end
  /\ (forall base, Relay.env_get Sample.env_with_override "CUBE_API_URL" = Some base ->
                   Vite.proxy_target Sample.build_with_override = base)
  /\ (Relay.env_get Sample.env_with_override "CUBE_API_URL" = None ->
      Vite.proxy_target Sample.build_with_override
      = Vite.VITE_CUBE_API_URL Sample.build_with_override).
Proof.
  exact (build_url_reaches_the_app Sample.env_with_override Sample.build_with_override
           ltac:(vm_compute; reflexivity)).
Defined.

(** X6 at a sample input: the same environment starts the relay. *)
Lemma X6_override :
  exists cfg,
    Vite.defineConfig Sample.env_with_override = inl cfg
    /\ Vite.proxy_target cfg = "https://cube.example"
    /\ (Relay.env_get Sample.env_with_override "VITE_CUBE_API_URL" = None ->
        Vite.VITE_CUBE_API_URL cfg = "https://cube.example").
Proof.
  exact (relay_env_builds Sample.env_with_override Sample.relay_with_override
           ltac:(vm_compute; reflexivity)).
Defined.

(** X12 at a sample input: refreshing a chat embed whose iframe had failed
    to load. *)
Lemma X12_failed_iframe :
  App.iframeError
    (fst (run (Example.answers 200 Example.session_abc123)
            (App.handle Example.base Example.origin App.Refresh Sample.failed_iframe)))
  = None.
Proof.
  exact (proj1 (iframe_error_after_action Example.base Example.origin App.Refresh
                  Sample.failed_iframe (Example.answers 200 Example.session_abc123))
           (App.sessionRequest Example.origin Sample.failed_iframe None)
           (Example.response 200 Example.session_abc123)
           Example.session_abc123
           (JObj [("sessionId", JStr "abc123")])
           (JStr "abc123")
           "abc123"
           eq_refl eq_refl eq_refl eq_refl eq_refl eq_refl eq_refl eq_refl).
Defined.

(** X16 at a sample input: an array of numbers as attributes. *)
Lemma X16_numbers :
  exists items,
    JSON_parse (App.userAttributes Sample.numbers_as_attributes) = Parsed (JArr items)
    /\ body (App.sessionRequest Example.origin Sample.numbers_as_attributes
               (Some (JArr [JNum (Ref.Int 1); JNum (Ref.Int 2)])))
       = JSON_stringify (App.requestBody Sample.numbers_as_attributes (Some (JArr items)))
    /\ get_prop (App.requestBody Sample.numbers_as_attributes (Some (JArr items)))
         "userAttributes"
       = Got (Some (JArr items)).
Proof.
  exact (attributes_are_sent_as_parsed Example.base Example.origin true
           Sample.numbers_as_attributes (Example.answers 200 Example.session_abc123)
           (App.sessionRequest Example.origin Sample.numbers_as_attributes
              (Some (JArr [JNum (Ref.Int 1); JNum (Ref.Int 2)])))
           eq_refl eq_refl ltac:(discriminate)).
Defined.

(** X17 at a sample input: a session identifier that is an object with a
    [toString] property. *)
Lemma X17_object_session_id :
  let st' := fst (run (Example.answers 200 Sample.session_without_text)
                    (App.generateSession Example.base Example.origin true Example.chat)) in
  App.sessionId st' = Some (JObj [("toString", JNum (Ref.Int 1))])
  /\ App.error st' = Some "Cannot convert object to primitive value"
  /\ App.success st' = None
  /\ App.embedUrl st' = None
  /\ App.displayEmbedUrl st' = None.
Proof.
  exact (session_id_without_text Example.base Example.origin true Example.chat
           (Example.answers 200 Sample.session_without_text)
           (App.sessionRequest Example.origin Example.chat None)
           (Example.response 200 Sample.session_without_text)
           Sample.session_without_text
           (JObj [("sessionId", JObj [("toString", JNum (Ref.Int 1))])])
           (JObj [("toString", JNum (Ref.Int 1))])
           eq_refl eq_refl eq_refl eq_refl eq_refl eq_refl eq_refl eq_refl).
Defined.

(** X18 at a sample input: a store saved with the embed type [home]. *)
Lemma X18_legacy_store :
  exists props',
    App.loadSavedConfig Sample.legacy_store = JObj props'
    /\ map fst props' = ["deploymentId"; "embedType"; "embedAfterGeneration"]
    /\ (forall k, k <> "embedType" ->
                  assoc_get k props'
                  = assoc_get k [("deploymentId", JStr "32"); ("embedType", JStr "home");
                                 ("embedAfterGeneration", JBool false)])
    /\ assoc_get "embedType" props' = Some (JStr "app").
Proof.
  exact (load_changes_only_home Sample.legacy_store Sample.legacy_text
           [("deploymentId", JStr "32"); ("embedType", JStr "home");
            ("embedAfterGeneration", JBool false)]
           eq_refl ltac:(discriminate) ltac:(vm_compute; reflexivity)).
Defined.

(** X19 at a sample input: a store whose text does not parse. *)
Lemma X19_broken_store : App.mount Sample.broken_store = Some Ui.defaults.
Proof.
  apply (unusable_store_mounts_defaults Sample.broken_store).
  intros saved props Hget _ Hparse.
  assert (Hsaved : saved = "{oops") by (vm_compute in Hget; congruence).
  subst saved. vm_compute in Hparse. discriminate.
Defined.

(** X20 at a sample input: the configuration with an empty external id. *)
Lemma X20_second_reload :
  exists st1,
    App.mount (App.saveConfig Example.empty_external_id ∅) = Some st1
    /\ App.mount (App.saveConfig st1 ∅) = Some st1.
Proof.
  destruct (ref_savedConfig_round_trip Example.empty_external_id) as [Hne Hround].
  destruct (ref_savedConfig_round_trip (App.reloaded Example.empty_external_id))
    as [Hne' Hround'].
  exact (reload_is_stable Example.empty_external_id ∅ ∅ Hne Hround Hne' Hround').
Defined.

(** X21 at a sample input: a first visit, some events later. *)
Lemma X21_later_visit :
  App.well_typed (fst Sample.later_visit)
  /\ Ui.no_attributes_when_internal (fst Sample.later_visit).
Proof.
  apply (page_keeps_types Example.base Example.origin Sample.roomy Sample.first_visit).
  - unfold Sample.later_visit.
    repeat (apply Ui.reach_event; [|reflexivity]). apply Ui.reach_start.
  - split; [left; reflexivity|left; reflexivity].
  - intros H. reflexivity.
Defined.

(** X22 at a sample input: the store of the same visit. *)
Lemma X22_later_visit : Ui.in_sync Sample.later_visit.
Proof.
  apply (store_follows_the_form Example.base Example.origin Sample.roomy ∅
           Sample.first_visit).
  - intros st localStorage. reflexivity.
  - reflexivity.
  - unfold Sample.later_visit.
    repeat (apply Ui.reach_event; [|reflexivity]). apply Ui.reach_start.
Defined.

(** X23 at a sample input: a visit that started from a stored internal
    user whose attributes text was left over; opening the page again brings
    the form back with that text. *)
Lemma X23_later_visit :
  exists st',
    App.mount (snd Sample.stale_later_visit) = Some st'
    /\ App.savedConfig st' = App.savedConfig (fst Sample.stale_later_visit).
Proof.
  apply (reopening_restores_the_form Example.base Example.origin Sample.roomy
           Sample.stale_store Sample.stale_first_visit).
  - intros st localStorage. reflexivity.
  - reflexivity.
  - split; [right; reflexivity|left; reflexivity].
  - unfold Sample.stale_later_visit.
    repeat (apply Ui.reach_event; [|reflexivity]). apply Ui.reach_start.
  - discriminate.
Defined.

(** In a browser whose storage is full the save effect changes nothing: the
    store of a first visit stays empty, behind the form. *)
Example full_store_lags :
  Ui.mounted Sample.full ∅ = Some (Ui.defaults, ∅)
  /\ snd (Ui.dispatch Example.base Example.origin Sample.full
            (Example.unreachable "offline") (Ui.DeploymentIdInput "32")
            (Ui.defaults, ∅)) = ∅.
Proof. split; reflexivity. Qed.

End FurtherSamples.
